(** * Smart EBS Volume Optimization System

    A shallow embedding of the three Lambda functions of the pipeline

      - [lambdas/1_FilterVolumesLambda/lambda_function.py]   (Selector)
      - [lambdas/2_ModifyVolumesLambda/lambda_function.py]   (Converter)
      - [lambdas/3_VerifyAndNotifyLambda/lambda_function.py] (Verifier/Notifier)

    Every handler talks to AWS (EC2, DynamoDB, SNS).  A call to a service is
    an effect: it is appended to a chronological trace of events, and its
    outcome is decided by the environment from the whole history of events
    so far.  Python exceptions are the left summand of the result. *)

From Stdlib Require Import List String Ascii ZArith Bool.
From Stdlib Require Import Lia.
Import ListNotations.
Open Scope string_scope.
Open Scope list_scope.

Set Implicit Arguments.
Set Warnings "-register-all".

(** ** Python values and exceptions *)

(** The values an event can hold: what arrives as JSON.  A dict is an
    association list; the first binding of a key is the visible one. *)
Inductive pyval : Type :=
| PNone
| PBool (b : bool)
| PInt (n : Z)
| PFloat (repr : string)
| PStr (s : string)
| PList (items : list pyval)
| PDict (entries : list (string * pyval)).

(** The exceptions the handlers can meet.  All of them are subclasses of
    Python's [Exception], so an [except Exception] clause catches each. *)
Inductive exn : Type :=
| KeyError (key : string)
| IndexError
| TypeError
| JSONDecodeError
| ParamValidationError
| ClientError (code : string)
| EndpointConnectionError.

(** ** What the services see *)

(** A filter of [describe_volumes]. *)
Record Filter : Type := mkFilter {
  Name : string;
  Values : list string
}.

(** The record the Selector emits for a volume and the Converter reads. *)
Module VolumeRecord.
Record t : Type := mk {
  VolumeId : string;
  AvailabilityZone : string
}.
End VolumeRecord.

(** The item the Verifier/Notifier writes to the table: the dict [log] of
    the source, with exactly these seven keys. *)
Module AuditRecord.
Record t : Type := mk {
  VolumeID : string;
  InstanceId : string;
  VolumeType : string;
  Size : Z;
  Region : string;
  Timestamp : string;
  Status : string
}.
End AuditRecord.

Inductive DescribeRequest : Type :=
| ByFilters (filters : list Filter)
| ByVolumeIds (ids : list string).

(** One event per call to a service and per printed line; [outcome] is
    [None] when the call returned and [Some e] when it raised [e]. *)
Inductive Event : Type :=
| EvDescribeVolumes (request : DescribeRequest) (outcome : option exn)
| EvModifyVolume (volume_id volume_type : string) (outcome : option exn)
| EvPutItem (table : string) (item : AuditRecord.t) (outcome : option exn)
| EvPublish (topic_arn subject message : string) (outcome : option exn)
| EvPrintVolume (vol : pyval)
| EvPrintReason (e : exn).

Definition history := list Event.

(** ** The monad of the handlers

    A computation reads the history, returns a value or raises, and emits
    the events of the calls it made. *)
Definition M (A : Type) : Type := history -> (exn + A) * list Event.

Definition ret {A} (a : A) : M A := fun _ => (inr a, []).

Definition raise {A} (e : exn) : M A := fun _ => (inl e, []).

Definition bind {A B} (m : M A) (f : A -> M B) : M B :=
  fun h =>
    match m h with
    | (inl e, t) => (inl e, t)
    | (inr a, t) => let (r, t') := f a (h ++ t) in (r, t ++ t')
    end.

(** [try: m except Exception as e: handler e] *)
Definition try_except {A} (m : M A) (handler : exn -> M A) : M A :=
  fun h =>
    match m h with
    | (inl e, t) => let (r, t') := handler e (h ++ t) in (r, t ++ t')
    | (inr a, t) => (inr a, t)
    end.

Definition emit (ev : Event) : M unit := fun _ => (inr tt, [ev]).

(** A call whose outcome the environment decides from the history. *)
Definition external {A} (oracle : history -> exn + A)
    (record : option exn -> Event) : M A :=
  fun h =>
    match oracle h with
    | inl e => (inl e, [record (Some e)])
    | inr a => (inr a, [record None])
    end.

Definition lift_result {A} (r : exn + A) : M A := fun _ => (r, []).

Declare Scope py_scope.
Delimit Scope py_scope with py.
Notation "x <- m ;; k" := (bind m (fun x => k))
  (at level 61, m at next level, right associativity) : py_scope.
Notation "m ;;; k" := (bind m (fun _ => k))
  (at level 61, right associativity) : py_scope.
Open Scope py_scope.

(** [for x in xs: body x] *)
Fixpoint for_each {A} (body : A -> M unit) (xs : list A) : M unit :=
  match xs with
  | [] => ret tt
  | x :: rest => body x ;;; for_each body rest
  end.

Definition unit_outcome (o : option exn) : exn + unit :=
  match o with
  | Some e => inl e
  | None => inr tt
  end.

(** ** 1_FilterVolumesLambda: the Selector *)
Module FilterVolumes.

Record Tag : Type := mkTag {
  Key : string;
  Value : string
}.

(** A volume of the fleet, with the attributes the filters look at. *)
Module Volume.
Record t : Type := mk {
  VolumeId : string;
  AvailabilityZone : string;
  VolumeType : string;
  Tags : list Tag
}.
End Volume.

(** EC2 as the Selector meets it: the fleet at the time of the query,
    and whether the query fails (network, credentials, throttling). *)
Record Env : Type := mkEnv {
  inventory : history -> list Volume.t;
  query_fault : history -> option exn
}.

(** *** EC2's DescribeVolumes

    The filtering is done by the service, not by the handler.  It is
    modelled as EC2 documents it: a filter names an attribute and lists
    accepted values; a volume is returned when, for every filter, one of
    its values for the attribute is among the accepted ones.  A filter
    ["tag:<key>"] looks at the values of the tags with that key.  An
    accepted value without the wildcards [*] and [?], as the handler's
    are, is compared for equality, letter case included.  A request that
    sets no page size, as the handler's, is answered in full. *)
Definition tag_key (name : string) : option string :=
  if String.prefix "tag:" name
  then Some (String.substring 4 (String.length name - 4) name)
  else None.

(** The values of a volume for a filter name; [None] for a name this
    model of the service does not know. *)
Definition attribute (name : string) (v : Volume.t) : option (list string) :=
  match tag_key name with
  | Some key =>
      Some (map Value (filter (fun tg => String.eqb (Key tg) key)
                              (Volume.Tags v)))
  | None =>
      if String.eqb name "volume-type" then Some [Volume.VolumeType v]
      else if String.eqb name "volume-id" then Some [Volume.VolumeId v]
      else if String.eqb name "availability-zone"
           then Some [Volume.AvailabilityZone v]
      else None
  end.

Definition accepts (f : Filter) (v : Volume.t) : bool :=
  match attribute (Name f) v with
  | Some vals =>
      existsb (fun x => existsb (String.eqb x) (Values f)) vals
  | None => false
  end.

Definition known_filter (f : Filter) : bool :=
  match tag_key (Name f) with
  | Some _ => true
  | None =>
      String.eqb (Name f) "volume-type"
      || String.eqb (Name f) "volume-id"
      || String.eqb (Name f) "availability-zone"
  end.

Definition select (filters : list Filter) (fleet : list Volume.t)
    : exn + list Volume.t :=
  if forallb known_filter filters
  then inr (filter (fun v => forallb (fun f => accepts f v) filters) fleet)
  else inl (ClientError "InvalidParameterValue").

(** [ec2.describe_volumes(Filters=filters)['Volumes']] *)
Definition describe_volumes (env : Env) (filters : list Filter)
    : M (list Volume.t) :=
  external
    (fun h =>
       match query_fault env h with
       | Some e => inl e
       | None => select filters (inventory env h)
       end)
    (EvDescribeVolumes (ByFilters filters)).

(** *** The handler

    It reads neither its event nor its context. *)
Definition Filters : list Filter :=
  [ {| Name := "tag:AutoConvert"; Values := ["true"] |};
    {| Name := "volume-type"; Values := ["gp2"] |} ].

Definition lambda_handler (env : Env) : M (list VolumeRecord.t) :=
  volumes <- describe_volumes env Filters ;;
  ret (fold_left
         (fun output v =>
            output ++ [ {| VolumeRecord.VolumeId := Volume.VolumeId v;
                           VolumeRecord.AvailabilityZone :=
                             Volume.AvailabilityZone v |} ])
         volumes []).

(** *** What the spec calls the reference filter *)
Definition has_tag (key value : string) (v : Volume.t) : bool :=
  existsb (fun tg => String.eqb (Key tg) key && String.eqb (Value tg) value)
          (Volume.Tags v).

(** Tag [AutoConvert == true] and tier [== source tier], the source tier
    being gp2. *)
Definition eligible (v : Volume.t) : bool :=
  has_tag "AutoConvert" "true" v && String.eqb (Volume.VolumeType v) "gp2".

Definition record_of (v : Volume.t) : VolumeRecord.t :=
  {| VolumeRecord.VolumeId := Volume.VolumeId v;
     VolumeRecord.AvailabilityZone := Volume.AvailabilityZone v |}.

End FilterVolumes.

(** ** 2_ModifyVolumesLambda: the Converter *)
Module ModifyVolumes.

(** EC2 as the Converter meets it: [modify_volume] accepts or rejects.
    The event is the list of records the Selector returned. *)
Record Env : Type := mkEnv {
  modify_volume_outcome : history -> string -> string -> option exn
}.

Record Result : Type := mkResult {
  status : string;
  volumes : list string
}.

Definition modify_volume (env : Env) (volume_id volume_type : string)
    : M unit :=
  external
    (fun h => unit_outcome (modify_volume_outcome env h volume_id volume_type))
    (EvModifyVolume volume_id volume_type).

(** The body of the loop (lines 7-10). *)
Definition submit (env : Env) (vol : VolumeRecord.t) : M unit :=
  modify_volume env (VolumeRecord.VolumeId vol) "gp3".

Definition lambda_handler (env : Env) (event : list VolumeRecord.t)
    : M Result :=
  for_each (submit env) event ;;;
  ret {| status := "submitted for conversion";
         volumes := map VolumeRecord.VolumeId event |}.

(** The event of an accepted request for [vol]. *)
Definition accepted (vol : VolumeRecord.t) : Event :=
  EvModifyVolume (VolumeRecord.VolumeId vol) "gp3" None.

(** Was a request for [volume_id] sent, whatever its outcome? *)
Definition requested (volume_id : string) (t : list Event) : bool :=
  existsb (fun ev =>
             match ev with
             | EvModifyVolume v _ _ => String.eqb v volume_id
             | _ => false
             end) t.

(** Did some request of the trace fail? *)
Definition submission_failed (t : list Event) : bool :=
  existsb (fun ev =>
             match ev with
             | EvModifyVolume _ _ (Some _) => true
             | _ => false
             end) t.

End ModifyVolumes.

(** ** 3_VerifyAndNotifyLambda: the Verifier/Notifier *)
Module VerifyAndNotify.

(** *** The response of [describe_volumes(VolumeIds=[...])]

    A volume of the response is a dict; a key the service did not send
    is absent, which [volume['K']] answers with [KeyError] and
    [volume.get('K', d)] with [d]. *)
Module Attachment.
Record t : Type := mk {
  InstanceId : option string
}.
End Attachment.

Module VolumeDict.
Record t : Type := mk {
  VolumeType : option string;
  Size : option Z;
  State : option string;
  Attachments : option (list Attachment.t)
}.
End VolumeDict.

(** The services and the runtime as the handler meets them.
    [json_loads] is Python's [json.loads]; the others are decided by the
    environment from the history. *)
Record Env : Type := mkEnv {
  json_loads : string -> exn + pyval;
  describe_volumes_response : history -> string -> exn + list VolumeDict.t;
  put_item_outcome : history -> AuditRecord.t -> option exn;
  publish_outcome : history -> string -> string -> string -> option exn;
  utcnow_isoformat : history -> string
}.

Record Result : Type := mkResult {
  status : string
}.

Definition table_name : string := "VolumeConversionLogs".
Definition topic_arn : string :=
  "arn:aws:sns:ap-south-1:324037322062:EBSVolumeConvertedTopic".

(** *** Python operations the handler uses *)

Fixpoint dict_lookup (entries : list (string * pyval)) (key : string)
    : option pyval :=
  match entries with
  | [] => None
  | (k, v) :: rest => if String.eqb k key then Some v else dict_lookup rest key
  end.

(** [v[key]] for a string key: only a dict can be indexed by a string. *)
Definition getitem (v : pyval) (key : string) : exn + pyval :=
  match v with
  | PDict entries =>
      match dict_lookup entries key with
      | Some x => inr x
      | None => inl (KeyError key)
      end
  | _ => inl TypeError
  end.

(** A Python string is held as its UTF-8 bytes, and its characters are
    its code points: a byte [10xxxxxx] continues the code point of the
    byte before it. *)
Definition is_continuation (c : ascii) : bool :=
  match c with
  | Ascii _ _ _ _ _ _ b6 b7 => b7 && negb b6
  end.

(** The continuation bytes [s] starts with, and the code points of the
    rest of [s]. *)
Fixpoint split_code_points (s : string) : string * list string :=
  match s with
  | EmptyString => (EmptyString, [])
  | String c rest =>
      let (continuation, points) := split_code_points rest in
      if is_continuation c
      then (String c continuation, points)
      else (EmptyString, String c continuation :: points)
  end.

(** The characters of a string, one per code point.  Continuation bytes
    with no byte to continue, which no Python string encodes to, are kept
    together as one item. *)
Definition code_points (s : string) : list string :=
  match split_code_points s with
  | (EmptyString, points) => points
  | (stray, points) => stray :: points
  end.

(** The elements [for vol in v] runs over: the items of a list, the
    characters of a string, the keys of a dict; nothing else that JSON
    can hold is iterable. *)
Definition iter (v : pyval) : exn + list pyval :=
  match v with
  | PList items => inr items
  | PStr s => inr (map PStr (code_points s))
  | PDict entries => inr (map PStr (nodup string_dec (map fst entries)))
  | _ => inl TypeError
  end.

(** [d[key]] on a dict of the response. *)
Definition required {A} (key : string) (field : option A) : exn + A :=
  match field with
  | Some x => inr x
  | None => inl (KeyError key)
  end.

(** [xs[0]] *)
Definition first {A} (xs : list A) : exn + A :=
  match xs with
  | x :: _ => inr x
  | [] => inl IndexError
  end.

(** *** The calls to the services *)

(** boto3 validates the parameters before it sends anything: an element
    of [VolumeIds] that is not a string is refused with
    [ParamValidationError] and no request is made. *)
Definition describe_volumes (env : Env) (volume_id : pyval)
    : M (string * list VolumeDict.t) :=
  match volume_id with
  | PStr id =>
      volumes <- external (fun h => describe_volumes_response env h id)
                          (EvDescribeVolumes (ByVolumeIds [id])) ;;
      ret (id, volumes)
  | _ => raise ParamValidationError
  end.

Definition put_item (env : Env) (item : AuditRecord.t) : M unit :=
  external (fun h => unit_outcome (put_item_outcome env h item))
           (EvPutItem table_name item).

Definition publish (env : Env) (TopicArn Subject Message : string)
    : M unit :=
  external
    (fun h => unit_outcome (publish_outcome env h TopicArn Subject Message))
    (EvPublish TopicArn Subject Message).

Definition utcnow (env : Env) : M string :=
  fun h => (inr (utcnow_isoformat env h), []).

(** *** The handler *)

(** Lines 29-30: the attachments and the instance id. *)
Definition attachments_of (volume : VolumeDict.t) : list Attachment.t :=
  match VolumeDict.Attachments volume with
  | Some atts => atts
  | None => []
  end.

Definition instance_id_of (attachments : list Attachment.t) : exn + string :=
  match attachments with
  | att :: _ => required "InstanceId" (Attachment.InstanceId att)
  | [] => inr "Unknown"
  end.

Definition message_of (volume_id state : string) : string :=
  ("Volume ID: " ++ volume_id ++ ", Status: " ++ state)%string.

(** The body of the [try] (lines 22-48). *)
Definition verify_and_notify (env : Env) (vol : pyval) : M unit :=
  volume_id <- lift_result (getitem vol "VolumeId") ;;
  vol_details <- describe_volumes env volume_id ;;
  let (volume_id, Volumes) := vol_details in
  volume <- lift_result (first Volumes) ;;
  volume_type <- lift_result (required "VolumeType" (VolumeDict.VolumeType volume)) ;;
  size <- lift_result (required "Size" (VolumeDict.Size volume)) ;;
  state <- lift_result (required "State" (VolumeDict.State volume)) ;;
  let attachments := attachments_of volume in
  instance_id <- lift_result (instance_id_of attachments) ;;
  timestamp <- utcnow env ;;
  let log :=
    {| AuditRecord.VolumeID := volume_id;
       AuditRecord.InstanceId := instance_id;
       AuditRecord.VolumeType := volume_type;
       AuditRecord.Size := size;
       AuditRecord.Region := "ap-south-1";
       AuditRecord.Timestamp := timestamp;
       AuditRecord.Status := state |} in
  put_item env log ;;;
  publish env topic_arn "EBS Volume Status Logged" (message_of volume_id state).

(** One turn of the loop (lines 21-52): the [try] and its [except]. *)
Definition process (env : Env) (vol : pyval) : M unit :=
  try_except (verify_and_notify env vol)
             (fun e => emit (EvPrintVolume vol) ;;; emit (EvPrintReason e)).

(** Lines 15-16: a string is parsed as JSON. *)
Definition parse_if_str (env : Env) (event : pyval) : exn + pyval :=
  match event with
  | PStr s => json_loads env s
  | _ => inr event
  end.

(** Lines 17-18: a dict becomes a list of one element. *)
Definition wrap_if_dict (event : pyval) : pyval :=
  match event with
  | PDict _ => PList [event]
  | _ => event
  end.

(** Lines 20-54: the loop and the result. *)
Definition process_all (env : Env) (event : pyval) : M Result :=
  items <- lift_result (iter event) ;;
  for_each (process env) items ;;;
  ret {| status := "logged and notified" |}.

Definition lambda_handler (env : Env) (event : pyval) : M Result :=
  event <- lift_result (parse_if_str env event) ;;
  let event := wrap_if_dict event in
  process_all env event.

(** *** Reading a trace *)

(** The record lines 24-40 build from the response, when every key they
    read is there. *)
Definition observe (volume_id : string) (Volumes : list VolumeDict.t)
    (timestamp : string) : exn + AuditRecord.t :=
  match first Volumes with
  | inl e => inl e
  | inr volume =>
  match required "VolumeType" (VolumeDict.VolumeType volume) with
  | inl e => inl e
  | inr volume_type =>
  match required "Size" (VolumeDict.Size volume) with
  | inl e => inl e
  | inr size =>
  match required "State" (VolumeDict.State volume) with
  | inl e => inl e
  | inr state =>
  match instance_id_of (attachments_of volume) with
  | inl e => inl e
  | inr instance_id =>
      inr {| AuditRecord.VolumeID := volume_id;
             AuditRecord.InstanceId := instance_id;
             AuditRecord.VolumeType := volume_type;
             AuditRecord.Size := size;
             AuditRecord.Region := "ap-south-1";
             AuditRecord.Timestamp := timestamp;
             AuditRecord.Status := state |}
  end end end end end.

(** The terminal states of an item. *)
Inductive Terminal : Type :=
| Notified
| Failed (reason : exn).

Definition described (id : string) (outcome : option exn) : Event :=
  EvDescribeVolumes (ByVolumeIds [id]) outcome.

Definition notification (log : AuditRecord.t) (outcome : option exn) : Event :=
  EvPublish topic_arn "EBS Volume Status Logged"
    (message_of (AuditRecord.VolumeID log) (AuditRecord.Status log)) outcome.

Definition reported (vol : pyval) (e : exn) : list Event :=
  [EvPrintVolume vol; EvPrintReason e].

(** The traces one turn of the loop can leave for [vol], with the state
    the item ends in.  [log] is the record the handler built. *)
Inductive item_trace (vol : pyval) : list Event -> Terminal -> Prop :=
| refused_record (e : exn) :
    item_trace vol (reported vol e) (Failed e)
| query_failed (id : string) (e : exn) :
    item_trace vol (described id (Some e) :: reported vol e) (Failed e)
| response_unreadable (id : string) (e : exn) :
    item_trace vol (described id None :: reported vol e) (Failed e)
| persist_failed (log : AuditRecord.t) (e : exn) :
    item_trace vol (described (AuditRecord.VolumeID log) None
                    :: EvPutItem table_name log (Some e)
                    :: reported vol e) (Failed e)
| notify_failed (log : AuditRecord.t) (e : exn) :
    item_trace vol (described (AuditRecord.VolumeID log) None
                    :: EvPutItem table_name log None
                    :: notification log (Some e)
                    :: reported vol e) (Failed e)
| notified (log : AuditRecord.t) :
    item_trace vol [described (AuditRecord.VolumeID log) None;
                    EvPutItem table_name log None;
                    notification log None] Notified.

(** The body of the [try], call by call: what it returns and the trace
    it leaves, read off the answers of the environment.  It is proved
    equal to [verify_and_notify] below. *)
Definition item_run (env : Env) (vol : pyval) (h : history)
    : (exn + unit) * list Event :=
  match getitem vol "VolumeId" with
  | inl e => (inl e, [])
  | inr (PStr id) =>
      match describe_volumes_response env h id with
      | inl e => (inl e, [described id (Some e)])
      | inr Volumes =>
          let h1 := h ++ [described id None] in
          match observe id Volumes (utcnow_isoformat env h1) with
          | inl e => (inl e, [described id None])
          | inr log =>
              match put_item_outcome env h1 log with
              | Some e =>
                  (inl e, [described id None;
                           EvPutItem table_name log (Some e)])
              | None =>
                  match publish_outcome env
                          (h1 ++ [EvPutItem table_name log None])
                          topic_arn "EBS Volume Status Logged"
                          (message_of id (AuditRecord.Status log)) with
                  | Some e =>
                      (inl e, [described id None;
                               EvPutItem table_name log None;
                               notification log (Some e)])
                  | None =>
                      (inr tt, [described id None;
                                EvPutItem table_name log None;
                                notification log None])
                  end
              end
          end
      end
  | inr _ => (inl ParamValidationError, [])
  end.

(** Every [publish] of the trace comes right after a [put_item] that
    succeeded, and announces the record that was written.  [prev] is the
    event before the trace. *)
Fixpoint publishes_follow_writes (prev : option Event) (t : list Event)
    : bool :=
  match t with
  | [] => true
  | ev :: rest =>
      match ev with
      | EvPublish _ _ message _ =>
          match prev with
          | Some (EvPutItem _ log None) =>
              String.eqb message
                (message_of (AuditRecord.VolumeID log) (AuditRecord.Status log))
          | _ => false
          end
      | _ => true
      end
      && publishes_follow_writes (Some ev) rest
  end.

Definition write_failed (t : list Event) : bool :=
  existsb (fun ev =>
             match ev with
             | EvPutItem _ _ (Some _) => true
             | _ => false
             end) t.

Definition published (t : list Event) : bool :=
  existsb (fun ev =>
             match ev with
             | EvPublish _ _ _ _ => true
             | _ => false
             end) t.

(** The records of the [put_item] calls of a trace, and the messages of
    its [publish] calls, in order. *)
Definition writes (t : list Event) : list AuditRecord.t :=
  flat_map (fun ev =>
              match ev with
              | EvPutItem _ log _ => [log]
              | _ => []
              end) t.

Definition messages (t : list Event) : list string :=
  flat_map (fun ev =>
              match ev with
              | EvPublish _ _ message _ => [message]
              | _ => []
              end) t.

(** The traces of the turns of the loop over [items], one per item, each
    run on the history the turns before it left. *)
Fixpoint turns (env : Env) (items : list pyval) (h : history)
    : list (list Event) :=
  match items with
  | [] => []
  | vol :: rest =>
      let t := snd (process env vol h) in
      t :: turns env rest (h ++ t)
  end.

(** A notification went through. *)
Definition delivered (t : list Event) : bool :=
  existsb (fun ev =>
             match ev with
             | EvPublish _ _ _ None => true
             | _ => false
             end) t.

(** Every record written carries the region of the handler's clients. *)
Definition region_is_fixed (ev : Event) : Prop :=
  match ev with
  | EvPutItem _ log _ => AuditRecord.Region log = "ap-south-1"
  | _ => True
  end.

End VerifyAndNotify.

(** ** The audit table

    DynamoDB's PutItem creates a new item, or replaces the item of the
    table that has the same primary key.  The key schema of the table
    [VolumeConversionLogs] is set where the table is created, outside the
    handlers; it is a parameter here.  The handler writes the seven
    attributes of [AuditRecord.t] and no other, so a table its writes can
    succeed on has its key among them. *)
Module AuditTable.

Inductive Attribute : Type :=
| VolumeID | InstanceId | VolumeType | Size | Region | Timestamp | Status.

Inductive AttributeValue : Type :=
| S (s : string)
| N (n : Z).

Definition value (a : Attribute) (item : AuditRecord.t) : AttributeValue :=
  match a with
  | VolumeID => S (AuditRecord.VolumeID item)
  | InstanceId => S (AuditRecord.InstanceId item)
  | VolumeType => S (AuditRecord.VolumeType item)
  | Size => N (AuditRecord.Size item)
  | Region => S (AuditRecord.Region item)
  | Timestamp => S (AuditRecord.Timestamp item)
  | Status => S (AuditRecord.Status item)
  end.


(** The primary key of an item under a key schema (the partition key,
    then the sort key if the table has one). *)
Definition key (schema : list Attribute) (item : AuditRecord.t)
    : list AttributeValue :=
  map (fun a => value a item) schema.





End AuditTable.

(** ** Concrete scenarios

    Small fleets and environments on which the handlers are run. *)
Module Scenario.

Definition vol_X : VolumeRecord.t := VolumeRecord.mk "vol-X" "ap-south-1a".
Definition vol_Y : VolumeRecord.t := VolumeRecord.mk "vol-Y" "ap-south-1a".
Definition vol_Z : VolumeRecord.t := VolumeRecord.mk "vol-Z" "ap-south-1b".

Definition busy : exn := ClientError "IncorrectModificationState".

(** EC2 refuses to modify [vol-Y] and accepts every other volume. *)
Definition ec2_rejecting_Y : ModifyVolumes.Env :=
  {| ModifyVolumes.modify_volume_outcome :=
       fun _ volume_id _ =>
         if String.eqb volume_id "vol-Y" then Some busy else None |}.

(** The fleet of the spec's example: A is tagged and on the source tier,
    B is on the source tier with the tag set to false, C is tagged and
    already on the target tier. *)
Definition auto_convert (value : string) : FilterVolumes.Tag :=
  {| FilterVolumes.Key := "AutoConvert"; FilterVolumes.Value := value |}.

Definition volume_A : FilterVolumes.Volume.t :=
  FilterVolumes.Volume.mk "vol-A" "ap-south-1a" "gp2" [auto_convert "true"].
Definition volume_B : FilterVolumes.Volume.t :=
  FilterVolumes.Volume.mk "vol-B" "ap-south-1a" "gp2" [auto_convert "false"].
Definition volume_C : FilterVolumes.Volume.t :=
  FilterVolumes.Volume.mk "vol-C" "ap-south-1b" "gp3" [auto_convert "true"].

Definition fleet_ABC : FilterVolumes.Env :=
  {| FilterVolumes.inventory := fun _ => [volume_A; volume_B; volume_C];
     FilterVolumes.query_fault := fun _ => None |}.

(** A fleet in which nothing is eligible. *)
Definition fleet_BC : FilterVolumes.Env :=
  {| FilterVolumes.inventory := fun _ => [volume_B; volume_C];
     FilterVolumes.query_fault := fun _ => None |}.

(** A volume attached to two instances, one that is attached to none, and
    a record naming a volume. *)
Definition attached_volume : VerifyAndNotify.VolumeDict.t :=
  VerifyAndNotify.VolumeDict.mk (Some "gp3") (Some 8%Z) (Some "in-use")
    (Some [VerifyAndNotify.Attachment.mk (Some "i-0aaa");
           VerifyAndNotify.Attachment.mk (Some "i-0bbb")]).

Definition free_volume : VerifyAndNotify.VolumeDict.t :=
  VerifyAndNotify.VolumeDict.mk (Some "gp3") (Some 8%Z) (Some "available")
    (Some []).

Definition record_1 : pyval :=
  PDict [("VolumeId", PStr "vol-1"); ("AvailabilityZone", PStr "ap-south-1a")].

(** The clock reads one time during the first pass over a volume (three
    events) and a later one afterwards. *)
Definition clock (h : history) : string :=
  if Nat.ltb (List.length h) 3
  then "2025-01-01T00:00:00.000000"
  else "2025-01-01T00:05:00.000000".

(** Every service answers; [describe_volumes] finds [volume]. *)
Definition healthy (volume : VerifyAndNotify.VolumeDict.t)
    : VerifyAndNotify.Env :=
  {| VerifyAndNotify.json_loads := fun _ => inl JSONDecodeError;
     VerifyAndNotify.describe_volumes_response := fun _ _ => inr [volume];
     VerifyAndNotify.put_item_outcome := fun _ _ => None;
     VerifyAndNotify.publish_outcome := fun _ _ _ _ => None;
     VerifyAndNotify.utcnow_isoformat := clock |}.

(** The inventory has lost [vol-0] and knows every other volume; the
    table refuses every write. *)
Definition missing : exn := ClientError "InvalidVolume.NotFound".
Definition throttled : exn :=
  ClientError "ProvisionedThroughputExceededException".

Definition record_0 : pyval := PDict [("VolumeId", PStr "vol-0")].

Definition losing_vol_0 : VerifyAndNotify.Env :=
  {| VerifyAndNotify.json_loads := fun _ => inl JSONDecodeError;
     VerifyAndNotify.describe_volumes_response :=
       fun _ id =>
         if String.eqb id "vol-0" then inl missing else inr [attached_volume];
     VerifyAndNotify.put_item_outcome := fun _ _ => None;
     VerifyAndNotify.publish_outcome := fun _ _ _ _ => None;
     VerifyAndNotify.utcnow_isoformat := clock |}.

Definition table_down : VerifyAndNotify.Env :=
  {| VerifyAndNotify.json_loads := fun _ => inl JSONDecodeError;
     VerifyAndNotify.describe_volumes_response :=
       fun _ _ => inr [attached_volume];
     VerifyAndNotify.put_item_outcome := fun _ _ => Some throttled;
     VerifyAndNotify.publish_outcome := fun _ _ _ _ => None;
     VerifyAndNotify.utcnow_isoformat := clock |}.



Definition record_at (timestamp : string) : AuditRecord.t :=
  {| AuditRecord.VolumeID := "vol-1";
     AuditRecord.InstanceId := "i-0aaa";
     AuditRecord.VolumeType := "gp3";
     AuditRecord.Size := 8;
     AuditRecord.Region := "ap-south-1";
     AuditRecord.Timestamp := timestamp;
     AuditRecord.Status := "in-use" |}.

Definition first_record : AuditRecord.t :=
  record_at "2025-01-01T00:00:00.000000".
Definition second_record : AuditRecord.t :=
  record_at "2025-01-01T00:05:00.000000".

End Scenario.

(** ** The Converter on a raw event

    [ModifyVolumes.lambda_handler] takes the event as the list of records
    it is meant to be.  Here the same handler runs on whatever value the
    event is: the [for] iterates over it, [vol['VolumeId']] is looked up
    in each element, boto3 refuses a [VolumeId] that is not a string before
    it sends anything, and the comprehension of the [return] iterates and
    looks up once more. *)
Module ModifyVolumesUntyped.

Record Result : Type := mkResult {
  status : string;
  volumes : list pyval
}.

Definition modify_volume (env : ModifyVolumes.Env) (VolumeId : pyval)
    (VolumeType : string) : M unit :=
  match VolumeId with
  | PStr id => ModifyVolumes.modify_volume env id VolumeType
  | _ => raise ParamValidationError
  end.

(** The body of the loop (lines 7-10). *)
Definition submit (env : ModifyVolumes.Env) (vol : pyval) : M unit :=
  volume_id <- lift_result (VerifyAndNotify.getitem vol "VolumeId") ;;
  modify_volume env volume_id "gp3".

(** [[v['VolumeId'] for v in items]] (line 13). *)
Fixpoint volume_ids (items : list pyval) : exn + list pyval :=
  match items with
  | [] => inr []
  | v :: rest =>
      match VerifyAndNotify.getitem v "VolumeId" with
      | inl e => inl e
      | inr id =>
          match volume_ids rest with
          | inl e => inl e
          | inr ids => inr (id :: ids)
          end
      end
  end.

Definition lambda_handler (env : ModifyVolumes.Env) (event : pyval)
    : M Result :=
  items <- lift_result (VerifyAndNotify.iter event) ;;
  for_each (submit env) items ;;;
  items' <- lift_result (VerifyAndNotify.iter event) ;;
  ids <- lift_result (volume_ids items') ;;
  ret {| status := "submitted for conversion"; volumes := ids |}.

End ModifyVolumesUntyped.

(** ** Values passed from one handler to the next, and readings of traces *)
Module Pipeline.

(** A record as the Selector builds it (lines 14-17 of the Selector). *)
Definition record_event (r : VolumeRecord.t) : pyval :=
  PDict [("VolumeId", PStr (VolumeRecord.VolumeId r));
         ("AvailabilityZone", PStr (VolumeRecord.AvailabilityZone r))].

(** The dict the Converter returns (lines 11-14 of the Converter). *)
Definition result_event (res : ModifyVolumes.Result) : pyval :=
  PDict [("status", PStr (ModifyVolumes.status res));
         ("volumes", PList (map PStr (ModifyVolumes.volumes res)))].

(** Does [vol['VolumeId']] give a string? *)
Definition names_volume (vol : pyval) : bool :=
  match VerifyAndNotify.getitem vol "VolumeId" with
  | inr (PStr _) => true
  | _ => false
  end.

Definition is_print (ev : Event) : bool :=
  match ev with
  | EvPrintVolume _ | EvPrintReason _ => true
  | _ => false
  end.

Definition is_some {A} (o : option A) : bool :=
  match o with
  | Some _ => true
  | None => false
  end.

(** Can lines 24-30 of the Verifier/Notifier read the response: is there
    a first volume, with the keys [VolumeType], [Size] and [State], and
    with an [InstanceId] in its first attachment if it has one? *)
Definition readable (Volumes : list VerifyAndNotify.VolumeDict.t) : bool :=
  match Volumes with
  | [] => false
  | volume :: _ =>
      is_some (VerifyAndNotify.VolumeDict.VolumeType volume)
      && is_some (VerifyAndNotify.VolumeDict.Size volume)
      && is_some (VerifyAndNotify.VolumeDict.State volume)
      && match VerifyAndNotify.attachments_of volume with
         | att :: _ => is_some (VerifyAndNotify.Attachment.InstanceId att)
         | [] => true
         end
  end.

(** The volume ids the trace asked the inventory about, in order. *)
Definition described_ids (t : list Event) : list string :=
  flat_map (fun ev =>
              match ev with
              | EvDescribeVolumes (ByVolumeIds ids) _ => ids
              | _ => []
              end) t.

(** The notifications that went through, and the reasons printed. *)
Definition count_notified (t : list Event) : nat :=
  List.length (filter (fun ev =>
                         match ev with
                         | EvPublish _ _ _ None => true
                         | _ => false
                         end) t).

Definition count_reported (t : list Event) : nat :=
  List.length (filter (fun ev =>
                         match ev with
                         | EvPrintReason _ => true
                         | _ => false
                         end) t).

End Pipeline.

(** Further scenarios. *)
Module MoreScenarios.

Definition unreachable : exn := EndpointConnectionError.

(** The inventory cannot be reached. *)
Definition fleet_unreachable : FilterVolumes.Env :=
  {| FilterVolumes.inventory :=
       fun _ => [Scenario.volume_A; Scenario.volume_B; Scenario.volume_C];
     FilterVolumes.query_fault := fun _ => Some unreachable |}.

(** A record without a volume id. *)
Definition record_without_id : pyval :=
  PDict [("AvailabilityZone", PStr "ap-south-1a")].

(** The euro sign, U+20AC: three bytes in UTF-8, one character. *)
Definition euro : string :=
  String (ascii_of_nat 226)
    (String (ascii_of_nat 130) (String (ascii_of_nat 172) EmptyString)).

(** A volume the inventory describes without its state. *)
Definition stateless_volume : VerifyAndNotify.VolumeDict.t :=
  VerifyAndNotify.VolumeDict.mk (Some "gp3") (Some 8%Z) None (Some []).

End MoreScenarios.

(** * Properties *)

(** ** The monad *)

Lemma bind_ret_l {A B} (a : A) (f : A -> M B) (h : history) :
  bind (ret a) f h = f a h.
Proof.
  unfold bind, ret. rewrite app_nil_r. destruct (f a h). reflexivity.
Qed.

Lemma bind_raise {A B} (e : exn) (f : A -> M B) (h : history) :
  bind (raise e) f h = (inl e, []).
Proof. reflexivity. Qed.

Lemma bind_lift_inr {A B} (a : A) (f : A -> M B) (h : history) :
  bind (lift_result (inr a)) f h = f a h.
Proof. apply bind_ret_l. Qed.

Lemma bind_lift_inl {A B} (e : exn) (f : A -> M B) (h : history) :
  bind (lift_result (inl e)) f h = (inl e, []).
Proof. reflexivity. Qed.

(** ** The Converter *)
Section Converter.

Import ModifyVolumes.

Variable env : Env.

Lemma submission_failed_accepted (vols : list VolumeRecord.t) :
  submission_failed (map accepted vols) = false.
Proof. induction vols as [|v vols IH]; simpl; auto. Qed.

Lemma submission_failed_rejected (vols : list VolumeRecord.t)
    (id ty : string) (e : exn) :
  submission_failed (map accepted vols ++ [EvModifyVolume id ty (Some e)])
  = true.
Proof.
  unfold submission_failed. rewrite existsb_app. simpl.
  apply orb_true_r.
Qed.

(** The loop sends the requests in order and stops at the first one the
    service refuses. *)
Lemma submit_loop_shape (event : list VolumeRecord.t) :
  forall h,
    match for_each (submit env) event h with
    | (inr _, t) => t = map accepted event
    | (inl e, t) =>
        exists pre vol post,
          event = pre ++ vol :: post
          /\ modify_volume_outcome env (h ++ map accepted pre)
               (VolumeRecord.VolumeId vol) "gp3" = Some e
          /\ t = map accepted pre
                 ++ [EvModifyVolume (VolumeRecord.VolumeId vol) "gp3" (Some e)]
    end.
Proof.
  induction event as [|v rest IH]; intros h.
  - reflexivity.
  - cbn [for_each]. unfold bind at 1.
    unfold submit at 1, modify_volume, external.
    destruct (modify_volume_outcome env h (VolumeRecord.VolumeId v) "gp3")
      as [e|] eqn:Hout; cbn [unit_outcome].
    + exists [], v, rest. rewrite app_nil_r. auto.
    + specialize (IH (h ++ [EvModifyVolume (VolumeRecord.VolumeId v) "gp3" None])).
      destruct (for_each (submit env) rest _) as [[e|u] t].
      * destruct IH as (pre & vol & post & -> & Hrej & ->).
        exists (v :: pre), vol, post. repeat split.
        -- cbn [map]. rewrite <- app_assoc in Hrej. exact Hrej.
      * subst t. reflexivity.
Qed.

Lemma handler_unfold (event : list VolumeRecord.t) (h : history) :
  lambda_handler env event h =
  match for_each (submit env) event h with
  | (inl e, t) => (inl e, t)
  | (inr _, t) =>
      (inr {| status := "submitted for conversion";
              volumes := map VolumeRecord.VolumeId event |}, t)
  end.
Proof.
  unfold lambda_handler, bind.
  destruct (for_each (submit env) event h) as [[e|u] t]; [reflexivity|].
  unfold ret. rewrite app_nil_r. reflexivity.
Qed.

End Converter.

(** C1, as the code has it.  The Converter has no handler around a
    submission: the requests go out in the order of the input, and the
    first one the service refuses ends the call with that exception.  The
    records before it were submitted and accepted, no request is sent for
    a record after it, and no result is returned.  When nothing is
    refused, every record's request was sent. *)
Theorem converter_stops_at_first_failure
    (env : ModifyVolumes.Env) (event : list VolumeRecord.t) (h : history) :
  let (r, t) := ModifyVolumes.lambda_handler env event h in
  match r with
  | inr _ => t = map ModifyVolumes.accepted event
  | inl e =>
      exists pre vol post,
        event = pre ++ vol :: post
        /\ ModifyVolumes.modify_volume_outcome env
             (h ++ map ModifyVolumes.accepted pre)
             (VolumeRecord.VolumeId vol) "gp3" = Some e
        /\ t = map ModifyVolumes.accepted pre
               ++ [EvModifyVolume (VolumeRecord.VolumeId vol) "gp3" (Some e)]
  end.
Proof.
  rewrite handler_unfold.
  pose proof (submit_loop_shape env event h) as Hloop.
  destruct (for_each (ModifyVolumes.submit env) event h) as [[e|u] t]; exact Hloop.
Qed.

(** C1 fails as stated: with [vol-Y] refused, the call on [X; Y; Z] raises
    and no request is ever sent for [vol-Z]. *)
Lemma converter_isolation_counterexample :
  ModifyVolumes.lambda_handler Scenario.ec2_rejecting_Y
    [Scenario.vol_X; Scenario.vol_Y; Scenario.vol_Z] []
  = (inl Scenario.busy,
     [EvModifyVolume "vol-X" "gp3" None;
      EvModifyVolume "vol-Y" "gp3" (Some Scenario.busy)])
  /\ ModifyVolumes.requested "vol-Z"
       (snd (ModifyVolumes.lambda_handler Scenario.ec2_rejecting_Y
               [Scenario.vol_X; Scenario.vol_Y; Scenario.vol_Z] [])) = false.
Proof. split; reflexivity. Qed.

(** C2, as the code has it.  The Converter returns a result only when no
    submission failed; the status is then the constant
    ['submitted for conversion'] and the list holds the ids of all the
    input records, in order, each of them accepted.  When a submission
    failed the call raises and there is no result. *)
Theorem converter_result_all_or_nothing
    (env : ModifyVolumes.Env) (event : list VolumeRecord.t) (h : history) :
  let (r, t) := ModifyVolumes.lambda_handler env event h in
  if ModifyVolumes.submission_failed t
  then exists e, r = inl e
  else r = inr {| ModifyVolumes.status := "submitted for conversion";
                  ModifyVolumes.volumes := map VolumeRecord.VolumeId event |}
       /\ t = map ModifyVolumes.accepted event.
Proof.
  rewrite handler_unfold.
  pose proof (submit_loop_shape env event h) as Hloop.
  destruct (for_each (ModifyVolumes.submit env) event h) as [[e|u] t].
  - destruct Hloop as (pre & vol & post & _ & _ & ->).
    rewrite submission_failed_rejected. eauto.
  - subst t. rewrite submission_failed_accepted. auto.
Qed.

(** C2 fails as stated: on [X; Y] with X accepted and Y refused there is
    no result at all, so no status ['partial'] and no list holding X; and
    when everything is accepted the status is not ['submitted']. *)
Lemma converter_status_counterexample :
  fst (ModifyVolumes.lambda_handler Scenario.ec2_rejecting_Y
         [Scenario.vol_X; Scenario.vol_Y] []) = inl Scenario.busy
  /\ fst (ModifyVolumes.lambda_handler Scenario.ec2_rejecting_Y
            [Scenario.vol_X] [])
     = inr {| ModifyVolumes.status := "submitted for conversion";
              ModifyVolumes.volumes := ["vol-X"] |}
  /\ String.eqb "submitted for conversion" "submitted" = false.
Proof. repeat split. Qed.

(** ** The Selector *)
Section Selector.

Import FilterVolumes.

Lemma fold_left_append {A B} (f : A -> B) (xs : list A) :
  forall acc, fold_left (fun output x => output ++ [f x]) xs acc
              = acc ++ map f xs.
Proof.
  induction xs as [|x xs IH]; intros acc; simpl.
  - now rewrite app_nil_r.
  - rewrite IH, <- app_assoc. reflexivity.
Qed.

Lemma existsb_map_filter {A B} (p : B -> bool) (f : A -> B) (q : A -> bool)
    (xs : list A) :
  existsb p (map f (filter q xs)) = existsb (fun x => q x && p (f x)) xs.
Proof.
  induction xs as [|x xs IH]; [reflexivity|].
  cbn [filter existsb]. destruct (q x); cbn [map existsb andb]; now rewrite IH.
Qed.

Lemma existsb_pointwise {A} (p q : A -> bool) (xs : list A) :
  (forall x, p x = q x) -> existsb p xs = existsb q xs.
Proof.
  intros Hpq. induction xs as [|x xs IH]; [reflexivity|].
  cbn [existsb]. now rewrite Hpq, IH.
Qed.

Lemma tag_filter_has_tag (key value : string) (tags : list Tag) :
  existsb (fun x => existsb (String.eqb x) [value])
          (map Value (filter (fun tg => String.eqb (Key tg) key) tags))
  = existsb (fun tg => String.eqb (Key tg) key && String.eqb (Value tg) value)
            tags.
Proof.
  rewrite existsb_map_filter. apply existsb_pointwise. intros tg.
  cbn [existsb]. now rewrite orb_false_r.
Qed.

(** The two filters of the handler, as EC2 applies them, are the
    reference filter. *)
Lemma Filters_eligible (v : Volume.t) :
  forallb (fun f => accepts f v) Filters = eligible v.
Proof.
  unfold Filters, eligible, has_tag. cbn [forallb].
  unfold accepts at 1. cbn [Name Values].
  change (attribute "tag:AutoConvert" v)
    with (Some (map Value (filter (fun tg => String.eqb (Key tg) "AutoConvert")
                                  (Volume.Tags v)))).
  cbv beta iota. rewrite tag_filter_has_tag.
  unfold accepts. cbn [Name Values].
  change (attribute "volume-type" v) with (Some [Volume.VolumeType v]).
  cbv beta iota. cbn [existsb]. rewrite !orb_false_r, andb_true_r. reflexivity.
Qed.

Lemma select_Filters (fleet : list Volume.t) :
  select Filters fleet = inr (filter eligible fleet).
Proof.
  unfold select. change (forallb known_filter Filters) with true. cbv iota.
  f_equal. apply filter_ext. intros v. apply Filters_eligible.
Qed.

(** The handler makes one query; it raises what the query raised, and
    otherwise returns the records of the eligible volumes. *)
Lemma selector_run (env : Env) (h : history) :
  lambda_handler env h =
  match query_fault env h with
  | Some e => (inl e, [EvDescribeVolumes (ByFilters Filters) (Some e)])
  | None =>
      (inr (map record_of (filter eligible (inventory env h))),
       [EvDescribeVolumes (ByFilters Filters) None])
  end.
Proof.
  unfold lambda_handler, describe_volumes, bind, external, ret.
  destruct (query_fault env h) as [e|]; [reflexivity|].
  rewrite select_Filters.
  rewrite (fold_left_append record_of). reflexivity.
Qed.

Lemma filter_none {A} (p : A -> bool) (xs : list A) :
  forallb (fun x => negb (p x)) xs = true -> filter p xs = [].
Proof.
  induction xs as [|x xs IH]; [reflexivity|].
  cbn [forallb filter]. intros H. apply andb_true_iff in H.
  destruct H as [Hx Hxs]. destruct (p x); [discriminate|]. auto.
Qed.

End Selector.

(** C5.  Whenever the inventory query goes through, the Selector returns
    the records of the volumes of the fleet that carry the tag
    [AutoConvert] with value [true] and are of type gp2, one record per
    such volume and no other, after a single read of the inventory. *)
Theorem selector_filter_exact (env : FilterVolumes.Env) (h : history) :
  FilterVolumes.query_fault env h = None ->
  FilterVolumes.lambda_handler env h
  = (inr (map FilterVolumes.record_of
              (filter FilterVolumes.eligible (FilterVolumes.inventory env h))),
     [EvDescribeVolumes (ByFilters FilterVolumes.Filters) None]).
Proof.
  intros Hok. rewrite selector_run, Hok. reflexivity.
Qed.

(** The example of the spec: of A, B and C, exactly A is selected. *)
Lemma selector_filter_exact_witness :
  FilterVolumes.query_fault Scenario.fleet_ABC [] = None
  /\ FilterVolumes.lambda_handler Scenario.fleet_ABC []
     = (inr [VolumeRecord.mk "vol-A" "ap-south-1a"],
        [EvDescribeVolumes (ByFilters FilterVolumes.Filters) None]).
Proof.
  split; [reflexivity|].
  exact (selector_filter_exact Scenario.fleet_ABC [] eq_refl).
Defined.

(** ** The Verifier/Notifier *)
Section Verifier.

Import VerifyAndNotify.

Variable env : Env.

Lemma verify_and_notify_run (vol : pyval) (h : history) :
  verify_and_notify env vol h = item_run env vol h.
Proof.
  unfold verify_and_notify, item_run.
  destruct (getitem vol "VolumeId") as [e|v]; [reflexivity|].
  rewrite bind_lift_inr.
  destruct v; try reflexivity.
  unfold describe_volumes. do 2 unfold bind at 1. unfold external at 1.
  destruct (describe_volumes_response env h s) as [e|Volumes]; [reflexivity|].
  unfold ret at 1. cbv beta iota. rewrite app_nil_r.
  unfold observe.
  destruct (first Volumes) as [e|volume]; [reflexivity|].
  rewrite bind_lift_inr.
  destruct (required "VolumeType" _) as [e|volume_type]; [reflexivity|].
  rewrite bind_lift_inr.
  destruct (required "Size" _) as [e|size]; [reflexivity|].
  rewrite bind_lift_inr.
  destruct (required "State" _) as [e|state]; [reflexivity|].
  rewrite bind_lift_inr.
  destruct (instance_id_of _) as [e|instance_id]; [reflexivity|].
  rewrite bind_lift_inr.
  unfold bind, utcnow, put_item, publish, external. rewrite app_nil_r.
  cbv zeta. cbn [AuditRecord.Status AuditRecord.VolumeID].
  destruct (put_item_outcome env _ _) as [e|]; [reflexivity|].
  cbn [unit_outcome].
  destruct (publish_outcome env _ _ _ _) as [e|]; reflexivity.
Qed.

(** One turn of the loop never raises: what the body raised is printed. *)
Lemma process_run (vol : pyval) (h : history) :
  process env vol h =
  match item_run env vol h with
  | (inl e, t) => (inr tt, t ++ reported vol e)
  | (inr u, t) => (inr u, t)
  end.
Proof.
  unfold process, try_except. rewrite verify_and_notify_run.
  destruct (item_run env vol h) as [[e|u] t]; reflexivity.
Qed.

Lemma observe_fixed_fields (id : string) (Volumes : list VolumeDict.t)
    (timestamp : string) (log : AuditRecord.t) :
  observe id Volumes timestamp = inr log ->
  AuditRecord.VolumeID log = id
  /\ AuditRecord.Region log = "ap-south-1"
  /\ AuditRecord.Timestamp log = timestamp.
Proof.
  unfold observe.
  destruct (first Volumes) as [e|volume]; [discriminate|].
  destruct (required "VolumeType" _); [discriminate|].
  destruct (required "Size" _); [discriminate|].
  destruct (required "State" _); [discriminate|].
  destruct (instance_id_of _); [discriminate|].
  intros [= <-]. auto.
Qed.

(** Every turn ends in a terminal state, with one of the traces of
    [item_trace]. *)
Lemma process_terminal (vol : pyval) (h : history) :
  fst (process env vol h) = inr tt
  /\ exists o, item_trace vol (snd (process env vol h)) o.
Proof.
  rewrite process_run. unfold item_run.
  destruct (getitem vol "VolumeId") as [e|v].
  { split; [reflexivity|]. exists (Failed e). apply refused_record. }
  destruct v;
    try (split; [reflexivity|];
         exists (Failed ParamValidationError); apply refused_record).
  destruct (describe_volumes_response env h s) as [e|Volumes].
  { split; [reflexivity|]. exists (Failed e). apply query_failed. }
  cbv zeta.
  destruct (observe s Volumes _) as [e|log] eqn:Hobs.
  { split; [reflexivity|]. exists (Failed e). apply response_unreadable. }
  apply observe_fixed_fields in Hobs. destruct Hobs as (<- & _ & _).
  destruct (put_item_outcome env _ log) as [e|].
  { split; [reflexivity|]. exists (Failed e). apply persist_failed. }
  destruct (publish_outcome env _ _ _ _) as [e|].
  - split; [reflexivity|]. exists (Failed e). apply notify_failed.
  - split; [reflexivity|]. exists Notified. apply notified.
Qed.

(** The loop runs every turn, whatever the turns before it met. *)
Lemma process_loop (items : list pyval) :
  forall h,
    fst (for_each (process env) items h) = inr tt
    /\ exists ts,
         snd (for_each (process env) items h) = List.concat ts
         /\ Forall2 (fun vol t => exists o, item_trace vol t o) items ts.
Proof.
  induction items as [|vol rest IH]; intros h.
  - split; [reflexivity|]. exists []. split; [reflexivity|constructor].
  - cbn [for_each]. unfold bind.
    destruct (process_terminal vol h) as (Hr & o & Ht).
    destruct (process env vol h) as [r t]. cbn [fst snd] in Hr, Ht. subst r.
    destruct (IH (h ++ t)) as (Hr' & ts & Hts & Hall).
    destruct (for_each (process env) rest (h ++ t)) as [r' t'].
    cbn [fst snd] in *. split; [assumption|].
    exists (t :: ts). split.
    + cbn [List.concat]. now rewrite Hts.
    + constructor; eauto.
Qed.

Lemma process_all_run (event : pyval) (h : history) :
  process_all env event h =
  match iter event with
  | inl e => (inl e, [])
  | inr items =>
      (inr {| status := "logged and notified" |},
       snd (for_each (process env) items h))
  end.
Proof.
  unfold process_all.
  destruct (iter event) as [e|items]; [reflexivity|].
  rewrite bind_lift_inr. unfold bind.
  destruct (process_loop items h) as (Hr & _).
  destruct (for_each (process env) items h) as [r t].
  cbn [fst snd] in *. subst r. unfold ret. now rewrite app_nil_r.
Qed.

Lemma handler_run (event : pyval) (h : history) :
  lambda_handler env event h =
  match parse_if_str env event with
  | inl e => (inl e, [])
  | inr event' => process_all env (wrap_if_dict event') h
  end.
Proof.
  unfold lambda_handler.
  destruct (parse_if_str env event) as [e|event']; [reflexivity|].
  now rewrite bind_lift_inr.
Qed.

Lemma process_loop_turns (items : list pyval) :
  forall h, snd (for_each (process env) items h)
            = List.concat (turns env items h).
Proof.
  induction items as [|vol rest IH]; intros h; [reflexivity|].
  cbn [for_each turns List.concat]. unfold bind.
  destruct (process_terminal vol h) as (Hr & _).
  destruct (process env vol h) as [r t]. cbn [fst snd] in *. subst r.
  rewrite <- IH.
  destruct (for_each (process env) rest (h ++ t)) as [r' t']. reflexivity.
Qed.

Lemma turns_terminal (items : list pyval) :
  forall h, Forall2 (fun vol t => exists o, item_trace vol t o)
                    items (turns env items h).
Proof.
  induction items as [|vol rest IH]; intros h; cbn [turns]; constructor.
  - apply process_terminal.
  - apply IH.
Qed.

(** A property of traces that holds of the empty trace, of every turn and
    of the concatenation of two traces that have it holds of the trace of
    the handler. *)
Lemma handler_trace_ind (P : list Event -> Prop) :
  P [] ->
  (forall t1 t2, P t1 -> P t2 -> P (t1 ++ t2)) ->
  (forall vol h, P (snd (process env vol h))) ->
  forall event h, P (snd (lambda_handler env event h)).
Proof.
  intros Hnil Happ Hturn event h.
  rewrite handler_run.
  destruct (parse_if_str env event) as [e|event']; [exact Hnil|].
  rewrite process_all_run.
  destruct (iter (wrap_if_dict event')) as [e|items]; [exact Hnil|].
  cbn [snd]. generalize h. clear h.
  induction items as [|vol rest IH]; intros h; [exact Hnil|].
  cbn [for_each]. unfold bind.
  destruct (process_terminal vol h) as (Hr & _).
  specialize (Hturn vol h).
  destruct (process env vol h) as [r t]. cbn [fst snd] in *. subst r.
  specialize (IH (h ++ t)).
  destruct (for_each (process env) rest (h ++ t)) as [r' t'].
  cbn [snd] in *. auto.
Qed.

Lemma publishes_follow_writes_app (t1 t2 : list Event) :
  (forall prev, publishes_follow_writes prev t1 = true) ->
  (forall prev, publishes_follow_writes prev t2 = true) ->
  forall prev, publishes_follow_writes prev (t1 ++ t2) = true.
Proof.
  intros H1 H2. induction t1 as [|ev t1 IH]; intros prev; [apply H2|].
  cbn [app publishes_follow_writes].
  specialize (H1 prev). cbn [publishes_follow_writes] in H1.
  apply andb_true_iff in H1. destruct H1 as [Hev Hrest].
  rewrite Hev. cbn [andb].
  clear IH Hev. revert Hrest. generalize (Some ev). clear prev ev.
  induction t1 as [|ev t1 IH]; intros prev Hrest; [apply H2|].
  cbn [app publishes_follow_writes] in *.
  apply andb_true_iff in Hrest. destruct Hrest as [Hev Hrest].
  rewrite Hev. cbn [andb]. apply IH. exact Hrest.
Qed.

Lemma last_cons_default {A} (x d : A) (xs : list A) :
  List.last (x :: xs) d = List.last xs x.
Proof.
  revert x d. induction xs as [|y ys IH]; intros x d; [reflexivity|].
  change (List.last (x :: y :: ys) d) with (List.last (y :: ys) d).
  rewrite (IH y d), (IH y x). reflexivity.
Qed.

(** What the check [publishes_follow_writes] says of a trace it accepts:
    the event before a [publish] is a [put_item] that succeeded, for the
    record the message announces. *)
Lemma publishes_follow_writes_sound (t1 : list Event) :
  forall prev t2 topic subject message outcome,
    publishes_follow_writes prev
      (t1 ++ EvPublish topic subject message outcome :: t2) = true ->
    exists table log,
      List.last (map Some t1) prev = Some (EvPutItem table log None)
      /\ message = message_of (AuditRecord.VolumeID log)
                              (AuditRecord.Status log).
Proof.
  induction t1 as [|ev t1 IH]; intros prev t2 topic subject message outcome H.
  - cbn [app publishes_follow_writes] in H.
    apply andb_true_iff in H. destruct H as [H _].
    destruct prev as [[| |table log [e|]| | |]|]; try discriminate.
    exists table, log. split; [reflexivity|].
    now apply String.eqb_eq.
  - cbn [app publishes_follow_writes] in H.
    apply andb_true_iff in H. destruct H as [_ H].
    destruct (IH _ _ _ _ _ _ H) as (table & log & Hlast & Hmsg).
    exists table, log. split; [|exact Hmsg].
    cbn [map]. rewrite last_cons_default. exact Hlast.
Qed.

Lemma item_trace_publishes (vol : pyval) (t : list Event) (o : Terminal) :
  item_trace vol t o -> forall prev, publishes_follow_writes prev t = true.
Proof.
  intros Ht prev. destruct Ht; cbn; rewrite ?String.eqb_refl; reflexivity.
Qed.

Lemma item_trace_no_publish_after_failed_write
    (vol : pyval) (t : list Event) (o : Terminal) :
  item_trace vol t o -> write_failed t && published t = false.
Proof. intros Ht. destruct Ht; reflexivity. Qed.

Lemma process_region (vol : pyval) (h : history) :
  Forall region_is_fixed (snd (process env vol h)).
Proof.
  rewrite process_run. unfold item_run.
  destruct (getitem vol "VolumeId") as [e|v].
  { repeat constructor. }
  destruct v; try (repeat constructor).
  destruct (describe_volumes_response env h s) as [e|Volumes].
  { repeat constructor. }
  cbv zeta.
  destruct (observe s Volumes _) as [e|log] eqn:Hobs.
  { repeat constructor. }
  apply observe_fixed_fields in Hobs. destruct Hobs as (_ & Hregion & _).
  destruct (put_item_outcome env _ log) as [e|].
  { repeat constructor; exact Hregion. }
  destruct (publish_outcome env _ _ _ _) as [e|];
    repeat constructor; exact Hregion.
Qed.

End Verifier.

(** C3.  Whatever an item meets (a record without a usable volume id, a
    failed inventory query, an unreadable response, a failed write of the
    audit record, a failed notification), the call on a batch returns its
    result and does not raise; the trace is the traces of the turns one
    after the other, one turn per item of the batch, and every turn ends
    in a terminal state: notified, or failed with the reason printed.  A
    turn returns normally whatever its body raised: the exception is
    printed after the calls the body had made, and goes no further. *)
Theorem verifier_isolates_item_failures
    (env : VerifyAndNotify.Env) (items : list pyval) (h : history)
    (vol : pyval) (h' : history) :
  fst (VerifyAndNotify.lambda_handler env (PList items) h)
  = inr {| VerifyAndNotify.status := "logged and notified" |}
  /\ snd (VerifyAndNotify.lambda_handler env (PList items) h)
     = List.concat (VerifyAndNotify.turns env items h)
  /\ Forall2 (fun vol t => exists o, VerifyAndNotify.item_trace vol t o)
             items (VerifyAndNotify.turns env items h)
  /\ VerifyAndNotify.process env vol h'
     = match VerifyAndNotify.verify_and_notify env vol h' with
       | (inl e, t) => (inr tt, t ++ VerifyAndNotify.reported vol e)
       | (inr u, t) => (inr u, t)
       end.
Proof.
  rewrite handler_run. cbn [VerifyAndNotify.parse_if_str VerifyAndNotify.wrap_if_dict].
  rewrite process_all_run. cbn [VerifyAndNotify.iter fst snd].
  split; [reflexivity|]. split; [|split].
  - apply process_loop_turns.
  - apply turns_terminal.
  - rewrite process_run, verify_and_notify_run. reflexivity.
Qed.

(** C4.  In the trace of a call, every [publish] comes right after a
    [put_item] that succeeded and announces the volume and status of the
    record just written; and a turn in which the write of the audit record
    failed publishes nothing. *)
Theorem persist_before_notify
    (env : VerifyAndNotify.Env) (event vol : pyval) (h h' : history) :
  VerifyAndNotify.publishes_follow_writes None
    (snd (VerifyAndNotify.lambda_handler env event h)) = true
  /\ VerifyAndNotify.write_failed (snd (VerifyAndNotify.process env vol h'))
     && VerifyAndNotify.published (snd (VerifyAndNotify.process env vol h'))
     = false.
Proof.
  split.
  - apply (handler_trace_ind env
             (fun t => forall prev,
                  VerifyAndNotify.publishes_follow_writes prev t = true)).
    + reflexivity.
    + apply publishes_follow_writes_app.
    + intros v k.
      destruct (process_terminal env v k) as (_ & o & Ht).
      exact (item_trace_publishes Ht).
  - destruct (process_terminal env vol h') as (_ & o & Ht).
    exact (item_trace_no_publish_after_failed_write Ht).
Qed.

(** The handlers on the scenarios. *)
Example verifier_goes_on_after_a_lost_volume :
  VerifyAndNotify.lambda_handler Scenario.losing_vol_0
    (PList [Scenario.record_0; PInt 7; Scenario.record_1]) []
  = (inr {| VerifyAndNotify.status := "logged and notified" |},
     [VerifyAndNotify.described "vol-0" (Some Scenario.missing);
      EvPrintVolume Scenario.record_0;
      EvPrintReason Scenario.missing;
      EvPrintVolume (PInt 7);
      EvPrintReason TypeError;
      VerifyAndNotify.described "vol-1" None;
      EvPutItem "VolumeConversionLogs" Scenario.second_record None;
      EvPublish "arn:aws:sns:ap-south-1:324037322062:EBSVolumeConvertedTopic"
        "EBS Volume Status Logged" "Volume ID: vol-1, Status: in-use" None]).
Proof. reflexivity. Qed.

Example verifier_is_silent_when_the_table_is_down :
  VerifyAndNotify.lambda_handler Scenario.table_down
    (PDict [("VolumeId", PStr "vol-1")]) []
  = (inr {| VerifyAndNotify.status := "logged and notified" |},
     [VerifyAndNotify.described "vol-1" None;
      EvPutItem "VolumeConversionLogs" Scenario.first_record
        (Some Scenario.throttled);
      EvPrintVolume (PDict [("VolumeId", PStr "vol-1")]);
      EvPrintReason Scenario.throttled]).
Proof. reflexivity. Qed.

Example verifier_rejects_a_number :
  VerifyAndNotify.lambda_handler Scenario.table_down (PInt 7) []
  = (inl TypeError, []).
Proof. reflexivity. Qed.

(** The characters of a string. *)
Lemma split_code_points_plain (s : string) :
  Forall (fun c => VerifyAndNotify.is_continuation c = false)
         (list_ascii_of_string s) ->
  VerifyAndNotify.split_code_points s
  = (EmptyString,
     map (fun c => String c EmptyString) (list_ascii_of_string s)).
Proof.
  induction s as [|c rest IH]; intros Hplain; [reflexivity|].
  cbn [list_ascii_of_string] in Hplain.
  inversion Hplain as [|c' cs Hc Hrest]; subst.
  cbn [VerifyAndNotify.split_code_points list_ascii_of_string map].
  rewrite (IH Hrest), Hc. reflexivity.
Qed.

(** A string without a continuation byte, a plain ASCII one among them,
    has one character per byte. *)
Lemma code_points_plain (s : string) :
  Forall (fun c => VerifyAndNotify.is_continuation c = false)
         (list_ascii_of_string s) ->
  VerifyAndNotify.code_points s
  = map (fun c => String c EmptyString) (list_ascii_of_string s).
Proof.
  intros Hplain. unfold VerifyAndNotify.code_points.
  now rewrite (split_code_points_plain s Hplain).
Qed.

Example code_points_of_an_id :
  VerifyAndNotify.code_points "vol-1" = ["v"; "o"; "l"; "-"; "1"].
Proof. reflexivity. Qed.

Example code_points_of_a_price :
  VerifyAndNotify.code_points
    (String "5" (MoreScenarios.euro ++ "!"))%string
  = ["5"; MoreScenarios.euro; "!"].
Proof. reflexivity. Qed.

Example verifier_runs_over_characters :
  VerifyAndNotify.process_all Scenario.table_down (PStr MoreScenarios.euro) []
  = (inr {| VerifyAndNotify.status := "logged and notified" |},
     [EvPrintVolume (PStr MoreScenarios.euro); EvPrintReason TypeError]).
Proof. reflexivity. Qed.

(** C10.  Every record the handler hands to [put_item] has its [Region]
    set to ['ap-south-1'], whatever the event and whatever the services
    answer. *)
Theorem region_is_constant
    (env : VerifyAndNotify.Env) (event : pyval) (h : history) :
  Forall VerifyAndNotify.region_is_fixed
         (snd (VerifyAndNotify.lambda_handler env event h)).
Proof.
  apply (handler_trace_ind env (Forall VerifyAndNotify.region_is_fixed)).
  - constructor.
  - intros t1 t2 H1 H2. apply Forall_app. split; assumption.
  - apply process_region.
Qed.

(** ** Single records, and the table *)
Section VerifierRuns.

Import VerifyAndNotify.

Variable env : Env.


(** The instance id of a record that was built: the first attachment's,
    or ['Unknown'] without attachments. *)
Lemma observe_instance_id (id : string) (Volumes : list VolumeDict.t)
    (timestamp : string) (log : AuditRecord.t) :
  observe id Volumes timestamp = inr log ->
  exists volume rest,
    Volumes = volume :: rest
    /\ match attachments_of volume with
       | att :: _ =>
           Attachment.InstanceId att = Some (AuditRecord.InstanceId log)
       | [] => AuditRecord.InstanceId log = "Unknown"
       end.
Proof.
  unfold observe. destruct Volumes as [|volume rest]; [discriminate|].
  cbn [first].
  destruct (required "VolumeType" _); [discriminate|].
  destruct (required "Size" _); [discriminate|].
  destruct (required "State" _); [discriminate|].
  unfold instance_id_of.
  destruct (attachments_of volume) as [|att atts] eqn:Hatts.
  - intros [= <-]. exists volume, rest. rewrite Hatts.
    split; reflexivity.
  - destruct (Attachment.InstanceId att) as [i|] eqn:Hatt; [|discriminate].
    cbn [required]. intros [= <-]. exists volume, rest. rewrite Hatts.
    split; [reflexivity|exact Hatt].
Qed.

(** A turn that wrote a record read the volume first. *)
Lemma process_write (vol : pyval) (h : history) (log : AuditRecord.t) :
  In log (writes (snd (process env vol h))) ->
  exists id Volumes,
    getitem vol "VolumeId" = inr (PStr id)
    /\ describe_volumes_response env h id = inr Volumes
    /\ observe id Volumes (utcnow_isoformat env (h ++ [described id None]))
       = inr log.
Proof.
  rewrite process_run. unfold item_run.
  destruct (getitem vol "VolumeId") as [e|v]; [intros []|].
  destruct v; try (intros []).
  destruct (describe_volumes_response env h s) as [e|Volumes] eqn:Hdesc;
    [intros []|].
  cbv zeta.
  destruct (observe s Volumes _) as [e|log'] eqn:Hobs; [intros []|].
  intros Hin. exists s, Volumes.
  assert (log' = log) as <-.
  { destruct (put_item_outcome env _ log') as [e|].
    - destruct Hin as [Heq|[]]. exact Heq.
    - destruct (publish_outcome env _ _ _ _) as [e|];
        destruct Hin as [Heq|[]]; exact Heq. }
  auto.
Qed.

(** A turn whose notification went through left the trace of a notified
    item, for the volume the record names. *)
Lemma process_delivered (vol : pyval) (h : history) :
  delivered (snd (process env vol h)) = true ->
  exists id log,
    getitem vol "VolumeId" = inr (PStr id)
    /\ AuditRecord.VolumeID log = id
    /\ snd (process env vol h)
       = [described id None; EvPutItem table_name log None;
          notification log None].
Proof.
  rewrite process_run. unfold item_run.
  destruct (getitem vol "VolumeId") as [e|v]; [discriminate|].
  destruct v; try discriminate.
  destruct (describe_volumes_response env h s) as [e|Volumes]; [discriminate|].
  cbv zeta.
  destruct (observe s Volumes _) as [e|log] eqn:Hobs; [discriminate|].
  apply observe_fixed_fields in Hobs. destruct Hobs as (Hid & _ & _).
  destruct (put_item_outcome env _ log) as [e|]; [discriminate|].
  destruct (publish_outcome env _ _ _ _) as [e|]; [discriminate|].
  intros _. exists s, log. auto.
Qed.

End VerifierRuns.

Section Table.

Import AuditTable.

Variable schema : list Attribute.



End Table.


(** C7.  On a fleet without an eligible volume the Selector returns the
    empty list after its one read of the inventory; on an empty sequence
    the Converter and the Verifier/Notifier return their result without a
    single call to a service: nothing is modified, written or published. *)
Theorem empty_input_is_neutral
    (fleet : FilterVolumes.Env) (ec2 : ModifyVolumes.Env)
    (aws : VerifyAndNotify.Env) (h : history) :
  FilterVolumes.query_fault fleet h = None ->
  forallb (fun v => negb (FilterVolumes.eligible v))
          (FilterVolumes.inventory fleet h) = true ->
  FilterVolumes.lambda_handler fleet h
  = (inr [], [EvDescribeVolumes (ByFilters FilterVolumes.Filters) None])
  /\ ModifyVolumes.lambda_handler ec2 [] h
     = (inr {| ModifyVolumes.status := "submitted for conversion";
               ModifyVolumes.volumes := [] |}, [])
  /\ VerifyAndNotify.lambda_handler aws (PList []) h
     = (inr {| VerifyAndNotify.status := "logged and notified" |}, []).
Proof.
  intros Hok Hnone. repeat split.
  rewrite selector_run, Hok, (filter_none _ _ Hnone). reflexivity.
Qed.

Lemma empty_input_is_neutral_witness :
  FilterVolumes.query_fault Scenario.fleet_BC [] = None
  /\ forallb (fun v => negb (FilterVolumes.eligible v))
             (FilterVolumes.inventory Scenario.fleet_BC []) = true
  /\ FilterVolumes.lambda_handler Scenario.fleet_BC []
     = (inr [], [EvDescribeVolumes (ByFilters FilterVolumes.Filters) None])
  /\ ModifyVolumes.lambda_handler Scenario.ec2_rejecting_Y [] []
     = (inr {| ModifyVolumes.status := "submitted for conversion";
               ModifyVolumes.volumes := [] |}, [])
  /\ VerifyAndNotify.lambda_handler
       (Scenario.healthy Scenario.attached_volume) (PList []) []
     = (inr {| VerifyAndNotify.status := "logged and notified" |}, []).
Proof.
  split; [reflexivity|]. split; [reflexivity|].
  exact (empty_input_is_neutral Scenario.fleet_BC Scenario.ec2_rejecting_Y
           (Scenario.healthy Scenario.attached_volume) [] eq_refl eq_refl).
Defined.

(** C9.  A dict is handled as the list holding it.  A string is parsed
    first, once: if parsing raises, the call raises; a parsed value that
    is not a string is handled as if it had been the event (a dict among
    them, wrapped in turn); a parsed string is not parsed again, the loop
    runs over it. *)
Theorem verifier_coerces_event
    (env : VerifyAndNotify.Env) (entries : list (string * pyval))
    (s : string) (h : history) :
  VerifyAndNotify.lambda_handler env (PDict entries) h
  = VerifyAndNotify.lambda_handler env (PList [PDict entries]) h
  /\ VerifyAndNotify.lambda_handler env (PStr s) h
     = match VerifyAndNotify.json_loads env s with
       | inl e => (inl e, [])
       | inr (PStr s') => VerifyAndNotify.process_all env (PStr s') h
       | inr event => VerifyAndNotify.lambda_handler env event h
       end.
Proof.
  split.
  - rewrite !handler_run. reflexivity.
  - rewrite handler_run. cbn [VerifyAndNotify.parse_if_str].
    destruct (VerifyAndNotify.json_loads env s) as [e|event]; [reflexivity|].
    destruct event; rewrite ?handler_run; reflexivity.
Qed.

(** C8, as the code has it.  A record the handler writes for a volume has
    as [InstanceId] the instance of the first attachment of the volume the
    inventory returned, in the order returned, and the sentinel
    ['Unknown'] when the volume has no attachment. *)
Theorem recorded_instance_id
    (env : VerifyAndNotify.Env) (vol : pyval) (h : history)
    (log : AuditRecord.t) :
  In log (VerifyAndNotify.writes (snd (VerifyAndNotify.process env vol h))) ->
  exists id volume rest,
    VerifyAndNotify.getitem vol "VolumeId" = inr (PStr id)
    /\ VerifyAndNotify.describe_volumes_response env h id
       = inr (volume :: rest)
    /\ match VerifyAndNotify.attachments_of volume with
       | att :: _ =>
           VerifyAndNotify.Attachment.InstanceId att
           = Some (AuditRecord.InstanceId log)
       | [] => AuditRecord.InstanceId log = "Unknown"
       end.
Proof.
  intros Hin.
  destruct (process_write env vol h log Hin) as (id & Volumes & Hid & Hdesc & Hobs).
  destruct (observe_instance_id id Volumes _ Hobs) as (volume & rest & -> & Hatt).
  exists id, volume, rest. auto.
Qed.

Lemma recorded_instance_id_witness :
  In Scenario.first_record
     (VerifyAndNotify.writes
        (snd (VerifyAndNotify.process
                (Scenario.healthy Scenario.attached_volume)
                Scenario.record_1 [])))
  /\ exists id volume rest,
       VerifyAndNotify.getitem Scenario.record_1 "VolumeId" = inr (PStr id)
       /\ VerifyAndNotify.describe_volumes_response
            (Scenario.healthy Scenario.attached_volume) [] id
          = inr (volume :: rest)
       /\ match VerifyAndNotify.attachments_of volume with
          | att :: _ =>
              VerifyAndNotify.Attachment.InstanceId att
              = Some (AuditRecord.InstanceId Scenario.first_record)
          | [] => AuditRecord.InstanceId Scenario.first_record = "Unknown"
          end.
Proof.
  split; [left; reflexivity|].
  apply (recorded_instance_id (Scenario.healthy Scenario.attached_volume)
           Scenario.record_1 []).
  left; reflexivity.
Defined.

(** C8 fails as stated: for a volume without attachment the record holds
    ['Unknown'], which is not the string ['unknown']. *)
Lemma unattached_sentinel_counterexample :
  map AuditRecord.InstanceId
      (VerifyAndNotify.writes
         (snd (VerifyAndNotify.lambda_handler
                 (Scenario.healthy Scenario.free_volume)
                 (PList [Scenario.record_1]) [])))
  = ["Unknown"]
  /\ String.eqb "Unknown" "unknown" = false.
Proof. split; reflexivity. Qed.






(** * Further properties of the handlers *)

(** ** Loops *)

(** A loop over two lists in a row is the loop over the first, then, if
    it did not raise, the loop over the second on the history it left. *)
Lemma for_each_app {A} (body : A -> M unit) (xs ys : list A) :
  forall h,
    for_each body (xs ++ ys) h =
    match for_each body xs h with
    | (inl e, t) => (inl e, t)
    | (inr _, t) => let (r, t') := for_each body ys (h ++ t) in (r, t ++ t')
    end.
Proof.
  induction xs as [|x xs IH]; intros h.
  - cbn [app for_each]. unfold ret. rewrite app_nil_r.
    destruct (for_each body ys h). reflexivity.
  - cbn [app for_each]. unfold bind.
    destruct (body x h) as [[e|u] t]; [reflexivity|].
    rewrite IH.
    destruct (for_each body xs (h ++ t)) as [[e|u'] t1]; [reflexivity|].
    rewrite <- app_assoc.
    destruct (for_each body ys (h ++ t ++ t1)) as [r t2].
    now rewrite app_assoc.
Qed.

(** ** The Converter, further *)

(** X1.  Every call the Converter makes is a [modify_volume] for the id
    of a record of its input, and asks for the type gp3: it reads
    nothing, writes no record, publishes nothing, and touches no volume
    it was not given. *)
Theorem converter_requests_only_input_volumes
    (env : ModifyVolumes.Env) (event : list VolumeRecord.t) (h : history) :
  Forall (fun ev =>
            exists vol o,
              In vol event
              /\ ev = EvModifyVolume (VolumeRecord.VolumeId vol) "gp3" o)
         (snd (ModifyVolumes.lambda_handler env event h)).
Proof.
  rewrite handler_unfold.
  pose proof (submit_loop_shape env event h) as Hloop.
  assert (forall vols, (forall v, In v vols -> In v event) ->
            Forall (fun ev =>
                      exists vol o,
                        In vol event
                        /\ ev = EvModifyVolume (VolumeRecord.VolumeId vol) "gp3" o)
                   (map ModifyVolumes.accepted vols)) as Hacc.
  { intros vols Hsub. apply Forall_forall. intros ev Hin.
    apply in_map_iff in Hin. destruct Hin as (v & <- & Hv).
    exists v, None. split; [now apply Hsub|reflexivity]. }
  destruct (for_each (ModifyVolumes.submit env) event h) as [[e|u] t];
    cbn [snd].
  - destruct Hloop as (pre & vol & post & -> & _ & ->).
    apply Forall_app. split.
    + apply Hacc. intros v Hv. apply in_or_app. now left.
    + constructor; [|constructor].
      exists vol, (Some e). split; [|reflexivity].
      apply in_or_app. right. now left.
  - subst t. apply Hacc. auto.
Qed.

(** X2.  Submitting a batch in one call is submitting its first part and
    then, if that call returned, the rest on the history it left: the same
    requests in the same order with the same outcomes; the one call
    returns the ids of the whole batch. *)
Theorem converter_batch_split
    (env : ModifyVolumes.Env) (pre post : list VolumeRecord.t) (h : history) :
  ModifyVolumes.lambda_handler env (pre ++ post) h =
  match ModifyVolumes.lambda_handler env pre h with
  | (inl e, t) => (inl e, t)
  | (inr _, t) =>
      match ModifyVolumes.lambda_handler env post (h ++ t) with
      | (inl e, t') => (inl e, t ++ t')
      | (inr _, t') =>
          (inr {| ModifyVolumes.status := "submitted for conversion";
                  ModifyVolumes.volumes :=
                    map VolumeRecord.VolumeId (pre ++ post) |},
           t ++ t')
      end
  end.
Proof.
  rewrite !handler_unfold, for_each_app.
  destruct (for_each (ModifyVolumes.submit env) pre h) as [[e|u] t];
    [reflexivity|].
  rewrite handler_unfold.
  destruct (for_each (ModifyVolumes.submit env) post (h ++ t)) as [[e|u'] t'];
    reflexivity.
Qed.

(** ** The Selector, further *)

Lemma NoDup_map_filter {A B} (f : A -> B) (p : A -> bool) (xs : list A) :
  NoDup (map f xs) -> NoDup (map f (filter p xs)).
Proof.
  induction xs as [|x xs IH]; cbn [map filter]; intros Hnd; [constructor|].
  inversion Hnd as [|y ys Hnotin Hrest]; subst.
  destruct (p x); cbn [map]; [|auto].
  constructor; [|auto].
  intros Hin. apply Hnotin.
  apply in_map_iff in Hin. destruct Hin as (z & Hz & Hzin).
  apply filter_In in Hzin. destruct Hzin as [Hzin _].
  rewrite <- Hz. now apply in_map.
Qed.

Lemma record_ids (vols : list FilterVolumes.Volume.t) :
  map VolumeRecord.VolumeId (map FilterVolumes.record_of vols)
  = map FilterVolumes.Volume.VolumeId vols.
Proof. rewrite map_map. reflexivity. Qed.

(** X3.  The Selector makes one call, the [describe_volumes] with its two
    filters, and nothing else, whether the query goes through or not;
    when the query raises, the handler raises the same exception and
    returns no record. *)
Theorem selector_reads_once (env : FilterVolumes.Env) (h : history) :
  snd (FilterVolumes.lambda_handler env h)
  = [EvDescribeVolumes (ByFilters FilterVolumes.Filters)
       (FilterVolumes.query_fault env h)]
  /\ match FilterVolumes.query_fault env h with
     | Some e => fst (FilterVolumes.lambda_handler env h) = inl e
     | None => exists recs, fst (FilterVolumes.lambda_handler env h) = inr recs
     end.
Proof.
  rewrite selector_run.
  destruct (FilterVolumes.query_fault env h) as [e|]; cbn [fst snd].
  - split; reflexivity.
  - split; [reflexivity|]. eexists. reflexivity.
Qed.

(** X4.  When the volumes of the fleet have distinct ids, so have the
    records the Selector returns: no volume is handed on twice. *)
Theorem selector_ids_distinct (env : FilterVolumes.Env) (h : history) :
  FilterVolumes.query_fault env h = None ->
  NoDup (map FilterVolumes.Volume.VolumeId (FilterVolumes.inventory env h)) ->
  exists recs,
    fst (FilterVolumes.lambda_handler env h) = inr recs
    /\ NoDup (map VolumeRecord.VolumeId recs).
Proof.
  intros Hok Hnd. rewrite selector_run, Hok. cbn [fst].
  eexists. split; [reflexivity|].
  rewrite record_ids. now apply NoDup_map_filter.
Qed.

Lemma selector_ids_distinct_witness :
  FilterVolumes.query_fault Scenario.fleet_ABC [] = None
  /\ NoDup (map FilterVolumes.Volume.VolumeId
              (FilterVolumes.inventory Scenario.fleet_ABC []))
  /\ exists recs,
       fst (FilterVolumes.lambda_handler Scenario.fleet_ABC []) = inr recs
       /\ NoDup (map VolumeRecord.VolumeId recs).
Proof.
  assert (NoDup (map FilterVolumes.Volume.VolumeId
                   (FilterVolumes.inventory Scenario.fleet_ABC []))) as Hnd.
  { cbn. repeat constructor; cbn; intuition discriminate. }
  split; [reflexivity|]. split; [exact Hnd|].
  exact (selector_ids_distinct Scenario.fleet_ABC [] eq_refl Hnd).
Defined.

(** ** Selector, then Converter *)

(** X5.  When the records the Selector returned are the Converter's
    event, every request of the Converter is for a volume of the fleet
    that carries the tag and is of type gp2, and asks for gp3; and when no
    request failed, each such volume was asked for, once per occurrence
    in the fleet and in the fleet's order, and the Converter returns
    their ids. *)
Theorem pipeline_converts_eligible_only
    (fleet : FilterVolumes.Env) (ec2 : ModifyVolumes.Env) (h : history) :
  FilterVolumes.query_fault fleet h = None ->
  let stage1 := FilterVolumes.lambda_handler fleet h in
  exists recs,
    fst stage1 = inr recs
    /\ let stage2 := ModifyVolumes.lambda_handler ec2 recs (h ++ snd stage1) in
       Forall (fun ev =>
                 exists v o,
                   In v (FilterVolumes.inventory fleet h)
                   /\ FilterVolumes.eligible v = true
                   /\ ev = EvModifyVolume (FilterVolumes.Volume.VolumeId v)
                             "gp3" o)
              (snd stage2)
       /\ (ModifyVolumes.submission_failed (snd stage2) = false ->
           snd stage2
           = map (fun v =>
                    EvModifyVolume (FilterVolumes.Volume.VolumeId v) "gp3" None)
                 (filter FilterVolumes.eligible
                         (FilterVolumes.inventory fleet h))
           /\ fst stage2
              = inr {| ModifyVolumes.status := "submitted for conversion";
                       ModifyVolumes.volumes :=
                         map FilterVolumes.Volume.VolumeId
                             (filter FilterVolumes.eligible
                                     (FilterVolumes.inventory fleet h)) |}).
Proof.
  intros Hok. cbv zeta. rewrite selector_run, Hok. cbn [fst snd].
  eexists. split; [reflexivity|].
  set (vols := filter FilterVolumes.eligible (FilterVolumes.inventory fleet h)).
  set (h1 := h ++ _).
  rewrite handler_unfold.
  pose proof (submit_loop_shape ec2 (map FilterVolumes.record_of vols) h1)
    as Hloop.
  assert (forall vs, (forall v, In v vs -> In v vols) ->
            Forall (fun ev =>
                      exists v o,
                        In v (FilterVolumes.inventory fleet h)
                        /\ FilterVolumes.eligible v = true
                        /\ ev = EvModifyVolume
                                  (FilterVolumes.Volume.VolumeId v) "gp3" o)
                   (map ModifyVolumes.accepted
                        (map FilterVolumes.record_of vs))) as Hacc.
  { intros vs Hsub. apply Forall_forall. intros ev Hin.
    rewrite map_map in Hin. apply in_map_iff in Hin.
    destruct Hin as (v & <- & Hv).
    apply Hsub in Hv. apply filter_In in Hv. destruct Hv as [Hv Hel].
    exists v, None. auto. }
  destruct (for_each (ModifyVolumes.submit ec2) _ h1) as [[e|u] t];
    cbn [fst snd].
  - destruct Hloop as (pre & vol & post & Hsplit & _ & ->).
    split.
    + apply map_eq_app in Hsplit.
      destruct Hsplit as (vpre & vrest & Hvols & <- & Hrest).
      destruct vrest as [|v vpost]; [discriminate|].
      cbn [map] in Hrest. injection Hrest as <- _.
      apply Forall_app. split.
      * apply Hacc. intros w Hw. rewrite Hvols. apply in_or_app. now left.
      * constructor; [|constructor].
        assert (In v vols) as Hv.
        { rewrite Hvols. apply in_or_app. right. now left. }
        apply filter_In in Hv. destruct Hv as [Hv Hel].
        exists v, (Some e). auto.
    + rewrite submission_failed_rejected. discriminate.
  - subst t. split; [apply Hacc; auto|].
    intros _. rewrite !map_map. split; reflexivity.
Qed.

Lemma pipeline_converts_eligible_only_witness :
  FilterVolumes.query_fault Scenario.fleet_ABC [] = None
  /\ exists recs,
       fst (FilterVolumes.lambda_handler Scenario.fleet_ABC []) = inr recs
       /\ Forall (fun ev =>
                    exists v o,
                      In v (FilterVolumes.inventory Scenario.fleet_ABC [])
                      /\ FilterVolumes.eligible v = true
                      /\ ev = EvModifyVolume (FilterVolumes.Volume.VolumeId v)
                                "gp3" o)
                 (snd (ModifyVolumes.lambda_handler Scenario.ec2_rejecting_Y
                         recs
                         ([] ++ snd (FilterVolumes.lambda_handler
                                       Scenario.fleet_ABC []))))
          /\ (ModifyVolumes.submission_failed
                (snd (ModifyVolumes.lambda_handler Scenario.ec2_rejecting_Y
                        recs
                        ([] ++ snd (FilterVolumes.lambda_handler
                                      Scenario.fleet_ABC [])))) = false ->
              snd (ModifyVolumes.lambda_handler Scenario.ec2_rejecting_Y
                     recs
                     ([] ++ snd (FilterVolumes.lambda_handler
                                   Scenario.fleet_ABC [])))
              = map (fun v =>
                       EvModifyVolume (FilterVolumes.Volume.VolumeId v)
                         "gp3" None)
                    (filter FilterVolumes.eligible
                            (FilterVolumes.inventory Scenario.fleet_ABC []))
              /\ fst (ModifyVolumes.lambda_handler Scenario.ec2_rejecting_Y
                        recs
                        ([] ++ snd (FilterVolumes.lambda_handler
                                      Scenario.fleet_ABC [])))
                 = inr {| ModifyVolumes.status := "submitted for conversion";
                          ModifyVolumes.volumes :=
                            map FilterVolumes.Volume.VolumeId
                                (filter FilterVolumes.eligible
                                   (FilterVolumes.inventory
                                      Scenario.fleet_ABC [])) |}).
Proof.
  split; [reflexivity|].
  exact (pipeline_converts_eligible_only Scenario.fleet_ABC
           Scenario.ec2_rejecting_Y [] eq_refl).
Defined.

(** ** The Converter on a raw event *)
Section UntypedConverter.

Variable env : ModifyVolumes.Env.

Lemma submit_record (r : VolumeRecord.t) (h : history) :
  ModifyVolumesUntyped.submit env (Pipeline.record_event r) h
  = ModifyVolumes.submit env r h.
Proof.
  unfold ModifyVolumesUntyped.submit.
  change (VerifyAndNotify.getitem (Pipeline.record_event r) "VolumeId")
    with (@inr exn pyval (PStr (VolumeRecord.VolumeId r))).
  rewrite bind_lift_inr. reflexivity.
Qed.

Lemma for_each_records (event : list VolumeRecord.t) :
  forall h,
    for_each (ModifyVolumesUntyped.submit env)
             (map Pipeline.record_event event) h
    = for_each (ModifyVolumes.submit env) event h.
Proof.
  induction event as [|r rest IH]; intros h; [reflexivity|].
  cbn [map for_each]. unfold bind. rewrite submit_record.
  destruct (ModifyVolumes.submit env r h) as [[e|u] t]; [reflexivity|].
  now rewrite IH.
Qed.

Lemma volume_ids_records (event : list VolumeRecord.t) :
  ModifyVolumesUntyped.volume_ids (map Pipeline.record_event event)
  = inr (map PStr (map VolumeRecord.VolumeId event)).
Proof.
  induction event as [|r rest IH]; [reflexivity|].
  cbn [map ModifyVolumesUntyped.volume_ids].
  change (VerifyAndNotify.getitem (Pipeline.record_event r) "VolumeId")
    with (@inr exn pyval (PStr (VolumeRecord.VolumeId r))).
  cbv iota. now rewrite IH.
Qed.

(** A record whose [VolumeId] is missing or is not a string stops the
    loop before any request is made for it. *)
Lemma submit_unnamed (vol : pyval) (h : history) :
  Pipeline.names_volume vol = false ->
  exists e, ModifyVolumesUntyped.submit env vol h = (inl e, []).
Proof.
  unfold Pipeline.names_volume, ModifyVolumesUntyped.submit.
  destruct (VerifyAndNotify.getitem vol "VolumeId") as [e|v].
  - intros _. exists e. reflexivity.
  - rewrite bind_lift_inr.
    destruct v; try discriminate; intros _;
      exists ParamValidationError; reflexivity.
Qed.

Lemma nodup_nonempty (xs : list string) :
  xs <> [] -> nodup string_dec xs <> [].
Proof.
  induction xs as [|x xs IH]; [congruence|]. intros _. cbn [nodup].
  destruct (in_dec string_dec x xs) as [Hin|Hnotin]; [|discriminate].
  apply IH. intros ->. destruct Hin.
Qed.

End UntypedConverter.

(** X6.  On an event that is a list of records as the Selector builds
    them, the handler run on the raw event does what the handler on the
    list of records does: the same requests with the same outcomes, the
    same exception if one is raised, and otherwise the same status with
    the same ids, as strings. *)
Theorem untyped_converter_agrees
    (env : ModifyVolumes.Env) (event : list VolumeRecord.t) (h : history) :
  ModifyVolumesUntyped.lambda_handler env
    (PList (map Pipeline.record_event event)) h
  = match ModifyVolumes.lambda_handler env event h with
    | (inl e, t) => (inl e, t)
    | (inr res, t) =>
        (inr {| ModifyVolumesUntyped.status := ModifyVolumes.status res;
                ModifyVolumesUntyped.volumes :=
                  map PStr (ModifyVolumes.volumes res) |}, t)
    end.
Proof.
  rewrite handler_unfold.
  unfold ModifyVolumesUntyped.lambda_handler.
  cbn [VerifyAndNotify.iter]. rewrite bind_lift_inr.
  unfold bind at 1. rewrite for_each_records.
  destruct (for_each (ModifyVolumes.submit env) event h) as [[e|u] t];
    [reflexivity|].
  rewrite bind_lift_inr, volume_ids_records, bind_lift_inr.
  unfold ret. cbn [ModifyVolumes.status ModifyVolumes.volumes].
  now rewrite app_nil_r.
Qed.

(** X7.  A record of the event whose [VolumeId] is missing or is not a
    string ends the call with an exception, after the requests for the
    records before it and before any request for it or for a record after
    it. *)
Theorem converter_stops_at_malformed_record
    (env : ModifyVolumes.Env) (pre : list VolumeRecord.t)
    (bad : pyval) (post : list pyval) (h : history)
    (res : ModifyVolumes.Result) (t : list Event) :
  ModifyVolumes.lambda_handler env pre h = (inr res, t) ->
  Pipeline.names_volume bad = false ->
  exists e,
    ModifyVolumesUntyped.lambda_handler env
      (PList (map Pipeline.record_event pre ++ bad :: post)) h
    = (inl e, t).
Proof.
  rewrite handler_unfold. intros Hpre Hbad.
  unfold ModifyVolumesUntyped.lambda_handler.
  cbn [VerifyAndNotify.iter]. rewrite bind_lift_inr.
  unfold bind at 1. rewrite for_each_app, for_each_records.
  destruct (for_each (ModifyVolumes.submit env) pre h) as [[e|u] t0];
    [discriminate|].
  injection Hpre as _ <-.
  cbn [for_each]. unfold bind at 1.
  destruct (submit_unnamed env bad (h ++ t0) Hbad) as (e & ->).
  exists e. now rewrite app_nil_r.
Qed.

Lemma converter_stops_at_malformed_record_witness :
  ModifyVolumes.lambda_handler Scenario.ec2_rejecting_Y [Scenario.vol_X] []
  = (inr {| ModifyVolumes.status := "submitted for conversion";
            ModifyVolumes.volumes := ["vol-X"] |},
     [EvModifyVolume "vol-X" "gp3" None])
  /\ Pipeline.names_volume MoreScenarios.record_without_id = false
  /\ exists e,
       ModifyVolumesUntyped.lambda_handler Scenario.ec2_rejecting_Y
         (PList (map Pipeline.record_event [Scenario.vol_X]
                 ++ MoreScenarios.record_without_id
                    :: [Pipeline.record_event Scenario.vol_Z])) []
       = (inl e, [EvModifyVolume "vol-X" "gp3" None]).
Proof.
  split; [reflexivity|]. split; [reflexivity|].
  exact (converter_stops_at_malformed_record Scenario.ec2_rejecting_Y
           [Scenario.vol_X] MoreScenarios.record_without_id
           [Pipeline.record_event Scenario.vol_Z] [] eq_refl eq_refl).
Defined.

(** X8.  An event that is a dict with at least one key, rather than a
    list of records, ends the call with [TypeError] before any request:
    the loop runs over the keys, and a key is a string, which cannot be
    indexed by ['VolumeId']. *)
Theorem converter_rejects_dict_event
    (env : ModifyVolumes.Env) (key : string) (value : pyval)
    (entries : list (string * pyval)) (h : history) :
  ModifyVolumesUntyped.lambda_handler env (PDict ((key, value) :: entries)) h
  = (inl TypeError, []).
Proof.
  unfold ModifyVolumesUntyped.lambda_handler.
  cbn [VerifyAndNotify.iter]. rewrite bind_lift_inr.
  destruct (nodup string_dec (map fst ((key, value) :: entries)))
    as [|k ks] eqn:Hkeys.
  - exfalso. revert Hkeys. apply nodup_nonempty. discriminate.
  - reflexivity.
Qed.

(** ** The Verifier/Notifier, further *)
Section VerifierBatches.

Import VerifyAndNotify.

Variable env : Env.

Lemma batch_run (items : list pyval) (h : history) :
  lambda_handler env (PList items) h
  = (inr {| status := "logged and notified" |},
     List.concat (turns env items h)).
Proof.
  rewrite handler_run. cbn [parse_if_str wrap_if_dict].
  rewrite process_all_run. cbn [iter].
  now rewrite process_loop_turns.
Qed.

Lemma turns_app (xs ys : list pyval) :
  forall h,
    turns env (xs ++ ys) h
    = turns env xs h ++ turns env ys (h ++ List.concat (turns env xs h)).
Proof.
  induction xs as [|x xs IH]; intros h.
  - cbn [app turns List.concat]. now rewrite app_nil_r.
  - cbn [app turns List.concat]. rewrite IH, <- app_assoc. reflexivity.
Qed.

(** A turn on an item that names no volume makes no call. *)
Lemma process_unnamed (vol : pyval) (h : history) :
  Pipeline.names_volume vol = false ->
  exists e, process env vol h = (inr tt, reported vol e).
Proof.
  unfold Pipeline.names_volume. rewrite process_run. unfold item_run.
  destruct (getitem vol "VolumeId") as [e|v].
  - intros _. exists e. reflexivity.
  - destruct v; try discriminate; intros _;
      exists ParamValidationError; reflexivity.
Qed.

Lemma observe_readable (id : string) (Volumes : list VolumeDict.t)
    (timestamp : string) :
  match observe id Volumes timestamp with
  | inl _ => Pipeline.readable Volumes = false
  | inr _ => Pipeline.readable Volumes = true
  end.
Proof.
  unfold observe, Pipeline.readable.
  destruct Volumes as [|volume rest]; [reflexivity|]. cbn [first].
  destruct (VolumeDict.VolumeType volume); [|reflexivity].
  destruct (VolumeDict.Size volume); [|reflexivity].
  destruct (VolumeDict.State volume); [|reflexivity].
  cbn [required Pipeline.is_some andb]. unfold instance_id_of.
  destruct (attachments_of volume) as [|att atts]; [reflexivity|].
  destruct (Attachment.InstanceId att); reflexivity.
Qed.

(** The fields of a record that was built, against the response. *)
Lemma observe_fields (id : string) (Volumes : list VolumeDict.t)
    (timestamp : string) (log : AuditRecord.t) :
  observe id Volumes timestamp = inr log ->
  exists volume rest,
    Volumes = volume :: rest
    /\ VolumeDict.VolumeType volume = Some (AuditRecord.VolumeType log)
    /\ VolumeDict.Size volume = Some (AuditRecord.Size log)
    /\ VolumeDict.State volume = Some (AuditRecord.Status log).
Proof.
  unfold observe. destruct Volumes as [|volume rest]; [discriminate|].
  cbn [first].
  destruct (VolumeDict.VolumeType volume) as [ty|] eqn:Hty; [|discriminate].
  destruct (VolumeDict.Size volume) as [sz|] eqn:Hsz; [|discriminate].
  destruct (VolumeDict.State volume) as [st|] eqn:Hst; [|discriminate].
  cbn [required].
  destruct (instance_id_of _); [discriminate|].
  intros [= <-]. exists volume, rest. cbn. auto.
Qed.

Lemma writes_app (t1 t2 : list Event) :
  writes (t1 ++ t2) = writes t1 ++ writes t2.
Proof. apply flat_map_app. Qed.

Lemma messages_app (t1 t2 : list Event) :
  messages (t1 ++ t2) = messages t1 ++ messages t2.
Proof. apply flat_map_app. Qed.

Lemma count_notified_app (t1 t2 : list Event) :
  Pipeline.count_notified (t1 ++ t2)
  = Pipeline.count_notified t1 + Pipeline.count_notified t2.
Proof.
  unfold Pipeline.count_notified. now rewrite filter_app, length_app.
Qed.

Lemma count_reported_app (t1 t2 : list Event) :
  Pipeline.count_reported (t1 ++ t2)
  = Pipeline.count_reported t1 + Pipeline.count_reported t2.
Proof.
  unfold Pipeline.count_reported. now rewrite filter_app, length_app.
Qed.

(** One item: notified or reported, never both; at most one write, and a
    notification only with a write. *)
Lemma item_trace_counts (vol : pyval) (t : list Event) (o : Terminal) :
  item_trace vol t o ->
  Pipeline.count_notified t + Pipeline.count_reported t = 1
  /\ List.length (messages t) <= List.length (writes t)
  /\ List.length (writes t) <= 1.
Proof. intros Ht. destruct Ht; cbn; lia. Qed.

Lemma turns_counts (items : list pyval) :
  forall h,
    let t := List.concat (turns env items h) in
    Pipeline.count_notified t + Pipeline.count_reported t = List.length items
    /\ List.length (messages t) <= List.length (writes t)
    /\ List.length (writes t) <= List.length items.
Proof.
  induction items as [|vol rest IH]; intros h; cbv zeta.
  - cbn. lia.
  - cbn [turns List.concat List.length].
    rewrite count_notified_app, count_reported_app, writes_app, messages_app,
      !length_app.
    destruct (process_terminal env vol h) as (_ & o & Ht).
    apply item_trace_counts in Ht.
    specialize (IH (h ++ snd (process env vol h))). cbv zeta in IH.
    lia.
Qed.

(** A turn on a record as the Selector builds it asks the inventory
    about the record's volume, once, whatever happens next. *)
Lemma process_record_describes (r : VolumeRecord.t) (h : history) :
  Pipeline.described_ids (snd (process env (Pipeline.record_event r) h))
  = [VolumeRecord.VolumeId r].
Proof.
  rewrite process_run. unfold item_run.
  change (getitem (Pipeline.record_event r) "VolumeId")
    with (@inr exn pyval (PStr (VolumeRecord.VolumeId r))).
  cbv iota.
  destruct (describe_volumes_response env h _) as [e|Volumes]; [reflexivity|].
  cbv zeta.
  destruct (observe _ Volumes _) as [e|log]; [reflexivity|].
  destruct (put_item_outcome env _ log) as [e|]; [reflexivity|].
  destruct (publish_outcome env _ _ _ _) as [e|]; reflexivity.
Qed.

End VerifierBatches.

Section VerifierBatchFacts.

Import VerifyAndNotify.

Variable env : Env.

Lemma turns_unnamed (items : list pyval) :
  forallb (fun vol => negb (Pipeline.names_volume vol)) items = true ->
  forall h,
    forallb Pipeline.is_print (List.concat (turns env items h)) = true
    /\ List.length (List.concat (turns env items h)) = 2 * List.length items.
Proof.
  induction items as [|vol rest IH]; intros Hall h; [split; reflexivity|].
  cbn [forallb] in Hall. apply andb_true_iff in Hall.
  destruct Hall as [Hvol Hrest]. apply negb_true_iff in Hvol.
  destruct (process_unnamed env vol h Hvol) as (e & Hrun).
  cbn [turns List.concat]. rewrite Hrun. cbn [snd].
  destruct (IH Hrest (h ++ reported vol e)) as (Hprints & Hlen).
  split.
  - rewrite forallb_app, Hprints. reflexivity.
  - rewrite length_app, Hlen. cbn [reported List.length]. lia.
Qed.

Lemma turns_writes_name_items (items : list pyval) :
  forall h,
    Forall (fun log =>
              exists vol,
                In vol items
                /\ getitem vol "VolumeId" = inr (PStr (AuditRecord.VolumeID log)))
           (writes (List.concat (turns env items h))).
Proof.
  induction items as [|vol rest IH]; intros h; [constructor|].
  cbn [turns List.concat]. rewrite writes_app. apply Forall_app. split.
  - apply Forall_forall. intros log Hin.
    destruct (process_write env vol h log Hin) as (id & Volumes & Hid & _ & Hobs).
    apply observe_fixed_fields in Hobs. destruct Hobs as (<- & _ & _).
    exists vol. split; [now left|exact Hid].
  - eapply Forall_impl; [|apply IH].
    intros log (v & Hv & Hid). exists v. split; [now right|exact Hid].
Qed.

Lemma described_ids_app (t1 t2 : list Event) :
  Pipeline.described_ids (t1 ++ t2)
  = Pipeline.described_ids t1 ++ Pipeline.described_ids t2.
Proof. apply flat_map_app. Qed.

Lemma turns_records_describe (recs : list VolumeRecord.t) :
  forall h,
    Pipeline.described_ids
      (List.concat (turns env (map Pipeline.record_event recs) h))
    = map VolumeRecord.VolumeId recs.
Proof.
  induction recs as [|r rest IH]; intros h; [reflexivity|].
  cbn [map turns List.concat].
  rewrite described_ids_app, process_record_describes, IH. reflexivity.
Qed.

End VerifierBatchFacts.

(** X9.  When no item of the batch is a dict holding a string under
    ['VolumeId'], the call reaches no service: it returns its usual result
    and leaves only the printed lines, two per item. *)
Theorem verifier_skips_unnamed_items
    (env : VerifyAndNotify.Env) (items : list pyval) (h : history) :
  forallb (fun vol => negb (Pipeline.names_volume vol)) items = true ->
  fst (VerifyAndNotify.lambda_handler env (PList items) h)
  = inr {| VerifyAndNotify.status := "logged and notified" |}
  /\ forallb Pipeline.is_print
       (snd (VerifyAndNotify.lambda_handler env (PList items) h)) = true
  /\ List.length (snd (VerifyAndNotify.lambda_handler env (PList items) h))
     = 2 * List.length items.
Proof.
  intros Hall. rewrite batch_run. cbn [fst snd].
  split; [reflexivity|]. now apply turns_unnamed.
Qed.

Lemma verifier_skips_unnamed_items_witness :
  forallb (fun vol => negb (Pipeline.names_volume vol))
    [PStr "vol-1"; MoreScenarios.record_without_id;
     PDict [("VolumeId", PInt 1)]] = true
  /\ fst (VerifyAndNotify.lambda_handler
            (Scenario.healthy Scenario.attached_volume)
            (PList [PStr "vol-1"; MoreScenarios.record_without_id;
                    PDict [("VolumeId", PInt 1)]]) [])
     = inr {| VerifyAndNotify.status := "logged and notified" |}
  /\ forallb Pipeline.is_print
       (snd (VerifyAndNotify.lambda_handler
               (Scenario.healthy Scenario.attached_volume)
               (PList [PStr "vol-1"; MoreScenarios.record_without_id;
                       PDict [("VolumeId", PInt 1)]]) [])) = true
  /\ List.length
       (snd (VerifyAndNotify.lambda_handler
               (Scenario.healthy Scenario.attached_volume)
               (PList [PStr "vol-1"; MoreScenarios.record_without_id;
                       PDict [("VolumeId", PInt 1)]]) []))
     = 2 * List.length [PStr "vol-1"; MoreScenarios.record_without_id;
                        PDict [("VolumeId", PInt 1)]].
Proof.
  split; [reflexivity|].
  exact (verifier_skips_unnamed_items
           (Scenario.healthy Scenario.attached_volume)
           [PStr "vol-1"; MoreScenarios.record_without_id;
            PDict [("VolumeId", PInt 1)]] [] eq_refl).
Defined.

(** X10.  Given the dict the Converter returns as its event, the
    Verifier/Notifier takes it for one record, finds no ['VolumeId'] in it,
    prints the [KeyError] and returns ['logged and notified']: no volume
    of the list under ['volumes'] is looked at, written or announced. *)
Theorem verifier_on_converter_result
    (env : VerifyAndNotify.Env) (res : ModifyVolumes.Result) (h : history) :
  VerifyAndNotify.lambda_handler env (Pipeline.result_event res) h
  = (inr {| VerifyAndNotify.status := "logged and notified" |},
     [EvPrintVolume (Pipeline.result_event res);
      EvPrintReason (KeyError "VolumeId")]).
Proof.
  rewrite handler_run.
  cbn [Pipeline.result_event VerifyAndNotify.parse_if_str
       VerifyAndNotify.wrap_if_dict].
  fold (Pipeline.result_event res).
  rewrite process_all_run. cbn [VerifyAndNotify.iter for_each]. unfold bind.
  rewrite process_run. reflexivity.
Qed.

(** X11.  Once the inventory has answered for the volume of an item, a
    write of an audit record is attempted exactly when the answer can be
    read: it has a first volume with its type, size and state, and with
    an instance id in its first attachment if there is one.  Otherwise
    the turn ends after the query, with the exception printed. *)
Theorem write_iff_readable
    (env : VerifyAndNotify.Env) (vol : pyval) (id : string)
    (Volumes : list VerifyAndNotify.VolumeDict.t) (h : history) :
  VerifyAndNotify.getitem vol "VolumeId" = inr (PStr id) ->
  VerifyAndNotify.describe_volumes_response env h id = inr Volumes ->
  if Pipeline.readable Volumes
  then List.length
         (VerifyAndNotify.writes (snd (VerifyAndNotify.process env vol h))) = 1
  else exists e,
         VerifyAndNotify.process env vol h
         = (inr tt,
            VerifyAndNotify.described id None
            :: VerifyAndNotify.reported vol e).
Proof.
  intros Hid Hdesc. rewrite process_run. unfold VerifyAndNotify.item_run.
  rewrite Hid, Hdesc. cbv zeta.
  pose proof (observe_readable id Volumes
                (VerifyAndNotify.utcnow_isoformat env
                   (h ++ [VerifyAndNotify.described id None]))) as Hread.
  destruct (VerifyAndNotify.observe id Volumes _) as [e|log]; rewrite Hread.
  - exists e. reflexivity.
  - destruct (VerifyAndNotify.put_item_outcome env _ log) as [e|];
      [reflexivity|].
    destruct (VerifyAndNotify.publish_outcome env _ _ _ _) as [e|];
      reflexivity.
Qed.

Lemma write_iff_readable_witness :
  VerifyAndNotify.getitem Scenario.record_1 "VolumeId" = inr (PStr "vol-1")
  /\ VerifyAndNotify.describe_volumes_response
       (Scenario.healthy MoreScenarios.stateless_volume) [] "vol-1"
     = inr [MoreScenarios.stateless_volume]
  /\ exists e,
       VerifyAndNotify.process
         (Scenario.healthy MoreScenarios.stateless_volume)
         Scenario.record_1 []
       = (inr tt,
          VerifyAndNotify.described "vol-1" None
          :: VerifyAndNotify.reported Scenario.record_1 e).
Proof.
  split; [reflexivity|]. split; [reflexivity|].
  exact (write_iff_readable
           (Scenario.healthy MoreScenarios.stateless_volume)
           Scenario.record_1 [] eq_refl eq_refl).
Defined.

(** X12.  A call on a batch accounts for every item once: the
    notifications that went through and the reasons printed add up to the
    number of items.  It attempts at most one write per item, and no more
    notifications than writes. *)
Theorem verifier_accounts_for_every_item
    (env : VerifyAndNotify.Env) (items : list pyval) (h : history) :
  let t := snd (VerifyAndNotify.lambda_handler env (PList items) h) in
  Pipeline.count_notified t + Pipeline.count_reported t = List.length items
  /\ List.length (VerifyAndNotify.messages t)
     <= List.length (VerifyAndNotify.writes t)
  /\ List.length (VerifyAndNotify.writes t) <= List.length items.
Proof.
  rewrite batch_run. cbn [snd]. apply turns_counts.
Qed.

(** X13.  A record the handler writes reports what the inventory
    answered for the volume the item names: the id of the item, the type,
    size and state of the first volume of the answer, and the reading of
    the clock taken after the answer. *)
Theorem recorded_observation
    (env : VerifyAndNotify.Env) (vol : pyval) (h : history)
    (log : AuditRecord.t) :
  In log (VerifyAndNotify.writes (snd (VerifyAndNotify.process env vol h))) ->
  exists id volume rest,
    VerifyAndNotify.getitem vol "VolumeId" = inr (PStr id)
    /\ VerifyAndNotify.describe_volumes_response env h id
       = inr (volume :: rest)
    /\ AuditRecord.VolumeID log = id
    /\ VerifyAndNotify.VolumeDict.VolumeType volume
       = Some (AuditRecord.VolumeType log)
    /\ VerifyAndNotify.VolumeDict.Size volume = Some (AuditRecord.Size log)
    /\ VerifyAndNotify.VolumeDict.State volume
       = Some (AuditRecord.Status log)
    /\ AuditRecord.Timestamp log
       = VerifyAndNotify.utcnow_isoformat env
           (h ++ [VerifyAndNotify.described id None]).
Proof.
  intros Hin.
  destruct (process_write env vol h log Hin)
    as (id & Volumes & Hid & Hdesc & Hobs).
  destruct (observe_fields id Volumes _ Hobs)
    as (volume & rest & -> & Hty & Hsz & Hst).
  apply observe_fixed_fields in Hobs. destruct Hobs as (Hvid & _ & Hts).
  exists id, volume, rest. repeat split; assumption.
Qed.

Lemma recorded_observation_witness :
  In Scenario.first_record
     (VerifyAndNotify.writes
        (snd (VerifyAndNotify.process
                (Scenario.healthy Scenario.attached_volume)
                Scenario.record_1 [])))
  /\ exists id volume rest,
       VerifyAndNotify.getitem Scenario.record_1 "VolumeId" = inr (PStr id)
       /\ VerifyAndNotify.describe_volumes_response
            (Scenario.healthy Scenario.attached_volume) [] id
          = inr (volume :: rest)
       /\ AuditRecord.VolumeID Scenario.first_record = id
       /\ VerifyAndNotify.VolumeDict.VolumeType volume
          = Some (AuditRecord.VolumeType Scenario.first_record)
       /\ VerifyAndNotify.VolumeDict.Size volume
          = Some (AuditRecord.Size Scenario.first_record)
       /\ VerifyAndNotify.VolumeDict.State volume
          = Some (AuditRecord.Status Scenario.first_record)
       /\ AuditRecord.Timestamp Scenario.first_record
          = VerifyAndNotify.utcnow_isoformat
              (Scenario.healthy Scenario.attached_volume)
              ([] ++ [VerifyAndNotify.described id None]).
Proof.
  split; [left; reflexivity|].
  apply (recorded_observation (Scenario.healthy Scenario.attached_volume)
           Scenario.record_1 []).
  left; reflexivity.
Defined.

(** X14.  Every record a call writes carries as [VolumeID] the string
    some item of the batch holds under ['VolumeId']: no record is written
    for a volume the event does not name. *)
Theorem records_name_batch_volumes
    (env : VerifyAndNotify.Env) (items : list pyval) (h : history) :
  Forall (fun log =>
            exists vol,
              In vol items
              /\ VerifyAndNotify.getitem vol "VolumeId"
                 = inr (PStr (AuditRecord.VolumeID log)))
         (VerifyAndNotify.writes
            (snd (VerifyAndNotify.lambda_handler env (PList items) h))).
Proof.
  rewrite batch_run. cbn [snd]. apply turns_writes_name_items.
Qed.

(** X15.  A call on a batch leaves the trace of a call on its first part
    followed by the trace of a call on the rest, run on the history the
    first left: what an item meets never changes which calls are made
    for the items after it, only the history they are made on. *)
Theorem verifier_batch_split
    (env : VerifyAndNotify.Env) (xs ys : list pyval) (h : history) :
  VerifyAndNotify.lambda_handler env (PList (xs ++ ys)) h
  = (inr {| VerifyAndNotify.status := "logged and notified" |},
     snd (VerifyAndNotify.lambda_handler env (PList xs) h)
     ++ snd (VerifyAndNotify.lambda_handler env (PList ys)
               (h ++ snd (VerifyAndNotify.lambda_handler env (PList xs) h)))).
Proof.
  rewrite !batch_run. cbn [snd].
  now rewrite turns_app, concat_app.
Qed.

(** X16.  Given the records the Selector returned, the Verifier/Notifier
    asks the inventory about each record's volume once, in the order of
    the records, whatever the inventory, the table or the topic answer. *)
Theorem verifier_describes_each_record
    (env : VerifyAndNotify.Env) (recs : list VolumeRecord.t) (h : history) :
  Pipeline.described_ids
    (snd (VerifyAndNotify.lambda_handler env
            (PList (map Pipeline.record_event recs)) h))
  = map VolumeRecord.VolumeId recs.
Proof.
  rewrite batch_run. cbn [snd]. apply turns_records_describe.
Qed.

(** ** The result of the Converter on a raw event *)



